(* ===================================================================== *)
(* Video-Metadata-Modifier: a shallow embedding of the command-line      *)
(* orchestration layer (src/Video-Metadata-Modifier.py) and the          *)
(* properties of its profile store, metadata reader, metadata writer     *)
(* and command surface.                                                  *)
(*                                                                       *)
(* Modelling conventions                                                 *)
(*  - Python str is a Rocq string; case folding acts on ASCII letters.   *)
(*  - Paths follow the POSIX flavour of pathlib.                         *)
(*  - A dict is an association list in insertion order with unique keys. *)
(*  - The outside world (file system, external tools, tag library) is a  *)
(*    record of oracles that may depend on the history of the external   *)
(*    actions performed so far.                                          *)
(*  - Methods are state-passing functions over the process state         *)
(*    (metadata cache, external actions, log records, standard output)   *)
(*    that return a value, raise an exception or exit the process.       *)
(*  - The handlers of the desktop form are functions over the form's     *)
(*    variables; the body of its worker thread is embedded by itself.    *)
(* ===================================================================== *)

From Stdlib Require Import String Ascii List ZArith QArith Bool Lia.
From stdpp Require Import gmap strings list fin_maps.

Import ListNotations.
Local Open Scope string_scope.
Local Open Scope list_scope.

(* --------------------------------------------------------------------- *)
(* Python string helpers                                                 *)
(* --------------------------------------------------------------------- *)

Module PyStr.

(** [str.lower] on one ASCII character. *)
Definition lower_ascii (c : ascii) : ascii :=
  let n := nat_of_ascii c in
  if (65 <=? n)%nat && (n <=? 90)%nat then ascii_of_nat (n + 32) else c.

(** [str.upper] on one ASCII character. *)
Definition upper_ascii (c : ascii) : ascii :=
  let n := nat_of_ascii c in
  if (97 <=? n)%nat && (n <=? 122)%nat then ascii_of_nat (n - 32) else c.

Fixpoint map_str (f : ascii -> ascii) (s : string) : string :=
  match s with
  | EmptyString => EmptyString
  | String c r => String (f c) (map_str f r)
  end.

Definition lower (s : string) : string := map_str lower_ascii s.
Definition upper (s : string) : string := map_str upper_ascii s.

(** [s.split(sep)] for a one-character separator: the pieces between
    the separators, the empty ones included. *)
Fixpoint split_acc (sep : ascii) (cur : string) (s : string) : list string :=
  match s with
  | EmptyString => [cur]
  | String c r =>
      if Ascii.eqb c sep then cur :: split_acc sep EmptyString r
      else split_acc sep (cur ++ String c EmptyString) r
  end.

Definition split (sep : ascii) (s : string) : list string :=
  split_acc sep EmptyString s.

(** [s.rfind(c)]: the index of the last occurrence of [c], if any. *)
Fixpoint rfind (c : ascii) (s : string) : option nat :=
  match s with
  | EmptyString => None
  | String d r =>
      match rfind c r with
      | Some i => Some (S i)
      | None => if Ascii.eqb d c then Some 0%nat else None
      end
  end.

(** [s[i:]] *)
Fixpoint drop_str (i : nat) (s : string) : string :=
  match i, s with
  | O, _ => s
  | S j, EmptyString => EmptyString
  | S j, String _ r => drop_str j r
  end.

(** [sep.join(parts)] *)
Fixpoint join (sep : string) (parts : list string) : string :=
  match parts with
  | [] => EmptyString
  | [x] => x
  | x :: rest => x ++ sep ++ join sep rest
  end.

(** Truth value of a string: the empty string is false. *)
Definition truthy (s : string) : bool :=
  match s with EmptyString => false | _ => true end.

(** Truth value of an optional string ([None] or a str). *)
Definition truthy_opt (o : option string) : bool :=
  match o with Some s => truthy s | None => false end.

End PyStr.

(* --------------------------------------------------------------------- *)
(* pathlib.Path (POSIX flavour): name and suffix                         *)
(* --------------------------------------------------------------------- *)

Module PyPath.

(** The components kept by pathlib: empty components and "." are dropped. *)
Definition kept (part : string) : bool :=
  negb (String.eqb part "") && negb (String.eqb part ".").

Definition parts (p : string) : list string :=
  List.filter kept (PyStr.split "/" p).

(** [Path(p).name]: the final component, or the empty string. *)
Definition name (p : string) : string := List.last (parts p) "".

(** [Path(p).suffix]: the part of the name from its last dot, when the dot
    is neither the first nor the last character of the name. *)
Definition suffix (p : string) : string :=
  let n := name p in
  match PyStr.rfind "." n with
  | Some i =>
      if (0 <? i)%nat && (i <? String.length n - 1)%nat
      then PyStr.drop_str i n else ""
  | None => ""
  end.

End PyPath.

(* --------------------------------------------------------------------- *)
(* Data model                                                            *)
(* --------------------------------------------------------------------- *)

(** A flat [Dict[str, str]], in insertion order. *)
Definition dict := list (string * string).

(** A JSON value, as [json.loads] produces it. *)
#[warnings="-register-all"]
Inductive json :=
| JNull
| JBool (b : bool)
| JNum (q : Q)
| JStr (s : string)
| JArr (items : list json)
| JObj (fields : list (string * json)).

(** [d[k] = v] on an insertion-ordered dict: an existing key keeps its
    place and takes the new value, a new key goes to the end. *)
Fixpoint dict_set {V : Type} (k : string) (v : V) (d : list (string * V))
  : list (string * V) :=
  match d with
  | [] => [(k, v)]
  | (k', v') :: rest =>
      if String.eqb k' k then (k, v) :: rest else (k', v') :: dict_set k v rest
  end.

(** [d.get(k)] *)
Fixpoint dict_get {V : Type} (k : string) (d : list (string * V)) : option V :=
  match d with
  | [] => None
  | (k', v) :: rest => if String.eqb k' k then Some v else dict_get k rest
  end.

(** Truth value of a dict: the empty dict is false. *)
Definition dict_truthy {V : Type} (d : list (string * V)) : bool :=
  match d with [] => false | _ => true end.

(** Python exceptions that this program meets; all derive from Exception. *)
Inductive exn :=
| CalledProcessError (msg stderr : string)
| FileNotFoundError (msg : string)
| RuntimeError (msg : string)
| JSONDecodeError (msg : string)
| TypeError (msg : string)
| KeyError (msg : string)
| OSError (msg : string)
| OtherException (msg : string).

(** [str(e)] *)
Definition exn_str (e : exn) : string :=
  match e with
  | CalledProcessError m _ | FileNotFoundError m | RuntimeError m
  | JSONDecodeError m | TypeError m | KeyError m | OSError m
  | OtherException m => m
  end.

(** [e.stderr] of a CalledProcessError. *)
Definition exn_stderr (e : exn) : string :=
  match e with CalledProcessError _ err => err | _ => "" end.

Definition is_CalledProcessError (e : exn) : bool :=
  match e with CalledProcessError _ _ => true | _ => false end.

Definition is_CalledProcessError_or_FileNotFoundError (e : exn) : bool :=
  match e with
  | CalledProcessError _ _ | FileNotFoundError _ => true
  | _ => false
  end.

Definition is_Exception (e : exn) : bool := true.

(** External actions of the process, in the order they are performed. *)
Inductive effect :=
| Run (cmd : list string)                       (* subprocess.run(cmd, ...) *)
| OpenRead (path : string)                      (* open(path, 'r') *)
| Mp4Open (path : string)                       (* mutagen MP4(path) *)
| Mp4Save (path : string) (tags : option dict)  (* video.save(path) *)
| GuiSession.                                   (* the desktop form *)

(** Outcome of [subprocess.run(cmd, check=True)]. *)
Inductive proc_result :=
| ProcOk (stdout : string)
| ProcFailed (msg stderr : string)     (* non-zero exit: CalledProcessError *)
| ProcNotFound (msg : string).         (* no such program: FileNotFoundError *)

(** What os.path.getsize / getctime / getmtime report for a file, the two
    times already formatted as '%Y-%m-%d %H:%M:%S'. *)
Record file_stat := {
  st_size : N;
  st_created : string;
  st_modified : string
}.

(** The environment: each oracle answers from the history of the external
    actions performed so far, so the answers may change over time. *)
Record World := {
  path_exists : list effect -> string -> bool;
  subprocess_run : list effect -> list string -> proc_result;
  json_loads : string -> json + string;
  stat_file : list effect -> string -> file_stat + string;
  load_json_file : list effect -> string -> dict + exn;
  mp4_load : list effect -> string -> option dict + exn;
  mp4_save : list effect -> string -> option dict -> option exn;
  gui_session : list effect -> option exn
}.

Inductive level := INFO | WARNING | ERROR | USAGE.

(** A line on standard output: text, or [json.dumps(doc, indent=2)]. *)
Inductive out :=
| Line (s : string)
| JsonDump (doc : json).

(** Process state: the class-level metadata cache, the external actions,
    the log records (USAGE marks an argparse usage error) and stdout. *)
Record state := {
  cache : gmap string json;
  effects : list effect;
  log : list (level * string);
  stdout : list out
}.

Definition initial_state : state :=
  {| cache := ∅; effects := []; log := []; stdout := [] |}.

(* --------------------------------------------------------------------- *)
(* Control: return, raise, exit                                          *)
(* --------------------------------------------------------------------- *)

Inductive result (A : Type) :=
| Ret (a : A)
| Raise (e : exn)
| Exit (code : Z).

Arguments Ret {A} a.
Arguments Raise {A} e.
Arguments Exit {A} code.

Definition M (A : Type) : Type := state -> result A * state.

Definition ret {A} (a : A) : M A := fun st => (Ret a, st).

Definition bind {A B} (m : M A) (k : A -> M B) : M B :=
  fun st =>
    match m st with
    | (Ret a, st') => k a st'
    | (Raise e, st') => (Raise e, st')
    | (Exit c, st') => (Exit c, st')
    end.

Definition raise {A} (e : exn) : M A := fun st => (Raise e, st).

(** [sys.exit(code)]: SystemExit is not an Exception, no handler of this
    program catches it. *)
Definition sys_exit {A} (code : Z) : M A := fun st => (Exit code, st).

(** [try: m except <handles> as e: h e] *)
Definition try_catch {A} (m : M A) (handles : exn -> bool) (h : exn -> M A)
  : M A :=
  fun st =>
    match m st with
    | (Raise e, st') => if handles e then h e st' else (Raise e, st')
    | other => other
    end.

Notation "x <- m ;; k" := (bind m (fun x => k))
  (at level 100, m at next level, right associativity).
Notation "m ;;; k" := (bind m (fun _ => k))
  (at level 100, right associativity).

Definition logger (lvl : level) (msg : string) : M unit :=
  fun st =>
    (Ret tt, {| cache := cache st; effects := effects st;
                log := log st ++ [(lvl, msg)]; stdout := stdout st |}).

Definition print (o : out) : M unit :=
  fun st =>
    (Ret tt, {| cache := cache st; effects := effects st;
                log := log st; stdout := stdout st ++ [o] |}).

Definition record_effect (e : effect) (st : state) : state :=
  {| cache := cache st; effects := effects st ++ [e];
     log := log st; stdout := stdout st |}.

Definition cache_store (k : string) (v : json) : M unit :=
  fun st =>
    (Ret tt, {| cache := <[k := v]> (cache st); effects := effects st;
                log := log st; stdout := stdout st |}).

(** The process exit status of a finished run of main. *)
Definition exit_code (r : result unit) : Z :=
  match r with
  | Ret _ => 0
  | Exit c => c
  | Raise _ => 1
  end.

(* --------------------------------------------------------------------- *)
(* Profile store: the built-in device table                              *)
(* --------------------------------------------------------------------- *)

Definition hevc : string := "HEVC (H.265)".

(** [get_device_profiles()]: the table is built on first use and the same
    object is returned afterwards; nothing in the program mutates it. *)
Definition get_device_profiles : list (string * dict) :=
  [ ("iPhone 14 Pro",
      [("make", "Apple"); ("model", "iPhone 14 Pro"); ("software", "iOS 16.0");
       ("encoder", hevc);
       ("creation_tool", "iPhone 14 Pro back triple camera 6.86mm f/1.78")]);
    ("Samsung Galaxy S24 Ultra",
      [("make", "Samsung"); ("model", "SM-S928B"); ("software", "Android 14");
       ("encoder", hevc); ("creation_tool", "Samsung Galaxy S24 Ultra")]);
    ("Google Pixel 9 Pro",
      [("make", "Google"); ("model", "Pixel 9 Pro"); ("software", "Android 15");
       ("encoder", hevc); ("creation_tool", "Google Pixel 9 Pro")]);
    ("Samsung Galaxy Z Fold 6",
      [("make", "Samsung"); ("model", "SM-F956B"); ("software", "Android 14");
       ("encoder", hevc); ("creation_tool", "Samsung Galaxy Z Fold 6")]);
    ("OnePlus Open",
      [("make", "OnePlus"); ("model", "CPH2517"); ("software", "Android 14");
       ("encoder", hevc); ("creation_tool", "OnePlus Open")]);
    ("Xiaomi 15",
      [("make", "Xiaomi"); ("model", "2405CPH5DC"); ("software", "Android 15");
       ("encoder", hevc); ("creation_tool", "Xiaomi 15")]);
    ("Huawei Mate 60 Pro",
      [("make", "Huawei"); ("model", "DCO-AL00"); ("software", "HarmonyOS 4.0");
       ("encoder", hevc); ("creation_tool", "Huawei Mate 60 Pro")]);
    ("Sony Xperia 5 VI",
      [("make", "Sony"); ("model", "XQ-DQ74"); ("software", "Android 14");
       ("encoder", hevc); ("creation_tool", "Sony Xperia 5 VI")]);
    ("Oppo Find N3",
      [("make", "Oppo"); ("model", "CPH2511"); ("software", "Android 13");
       ("encoder", hevc); ("creation_tool", "Oppo Find N3")]);
    ("Vivo X100 Pro",
      [("make", "Vivo"); ("model", "V2303A"); ("software", "Android 14");
       ("encoder", hevc); ("creation_tool", "Vivo X100 Pro")]) ].

Definition SUPPORTED_FORMATS : list string :=
  [".mp4"; ".mov"; ".avi"; ".mkv"; ".m4v"; ".3gp"].

(** [x in xs] for a list of strings. *)
Definition str_in (x : string) (xs : list string) : bool :=
  List.existsb (String.eqb x) xs.

(* --------------------------------------------------------------------- *)
(* VideoMetadataModifier                                                 *)
(* --------------------------------------------------------------------- *)

Section Modifier.

Variable w : World.

(** [subprocess.run(cmd, capture_output=True, check=True)]; returns the
    captured standard output. *)
Definition run (cmd : list string) : M string :=
  fun st =>
    let st' := record_effect (Run cmd) st in
    match subprocess_run w (effects st) cmd with
    | ProcOk o => (Ret o, st')
    | ProcFailed m err => (Raise (CalledProcessError m err), st')
    | ProcNotFound m => (Raise (FileNotFoundError m), st')
    end.

Definition check_tools : M unit :=
  try_catch
    (_ <- run ["ffmpeg"; "-version"] ;;
     logger INFO "FFmpeg is available")
    is_CalledProcessError_or_FileNotFoundError
    (fun _ =>
       logger ERROR "FFmpeg is not installed or not accessible" ;;;
       raise (RuntimeError
                "FFmpeg is required but not found. Please install FFmpeg.")) ;;;
  try_catch
    (_ <- run ["exiftool"; "-ver"] ;;
     logger INFO "ExifTool is available")
    is_CalledProcessError_or_FileNotFoundError
    (fun _ =>
       logger WARNING
         "ExifTool not found. Some metadata features may be limited.").

(** [os.path.exists(path)] *)
Definition os_path_exists (path : string) : M bool :=
  fun st => (Ret (path_exists w (effects st) path), st).

Definition validate_input_file (file_path : string) : M bool :=
  ex <- os_path_exists file_path ;;
  if negb ex then
    logger ERROR ("Input file does not exist: " +:+ file_path) ;;;
    ret false
  else
    let file_ext := PyStr.lower (PyPath.suffix file_path) in
    if negb (str_in file_ext SUPPORTED_FORMATS) then
      logger ERROR ("Unsupported file format: " +:+ file_ext) ;;;
      ret false
    else ret true.

Definition ffprobe_cmd (file_path : string) : list string :=
  ["ffprobe"; "-v"; "quiet"; "-print_format"; "json"; "-show_format";
   "-show_streams"; "-show_chapters"; "-show_packets"; file_path].

(** [json.loads(text)] *)
Definition py_json_loads (text : string) : M json :=
  match json_loads w text with
  | inl j => ret j
  | inr m => raise (JSONDecodeError m)
  end.

(** The 'file_info' entry; the size is in MB, size / (1024 * 1024). *)
Definition file_info (file_path : string) : M json :=
  fun st =>
    match stat_file w (effects st) file_path with
    | inl s =>
        (Ret (JObj
          [("file_name", JStr (PyPath.name file_path));
           ("file_size", JNum (Qmake (Z.of_N (st_size s)) 1048576));
           ("file_format",
             JStr (PyStr.upper (PyStr.drop_str 1 (PyPath.suffix file_path))));
           ("date_created", JStr (st_created s));
           ("date_modified", JStr (st_modified s))]), st)
    | inr m => (Raise (OSError m), st)
    end.

(** [metadata[key] = value]: item assignment works on a dict only. *)
Definition json_setitem (metadata : json) (key : string) (value : json)
  : M json :=
  match metadata with
  | JObj fields => ret (JObj (dict_set key value fields))
  | _ => raise (TypeError "object does not support item assignment")
  end.

(** [self._metadata_cache[file_path]] *)
Definition cache_lookup (file_path : string) : M json :=
  fun st =>
    match cache st !! file_path with
    | Some d => (Ret d, st)
    | None => (Raise (KeyError file_path), st)
    end.

Definition cache_has (file_path : string) : M bool :=
  fun st => (Ret (bool_decide (is_Some (cache st !! file_path))), st).

(** The try block of [get_current_metadata] with its handler: probe the
    file and store the document, or store the empty document when the
    probe exits with a non-zero status. *)
Definition probe_and_store (file_path : string) : M unit :=
  try_catch
    (out <- run (ffprobe_cmd file_path) ;;
     parsed <- py_json_loads out ;;
     info <- file_info file_path ;;
     metadata <- json_setitem parsed "file_info" info ;;
     cache_store file_path metadata)
    is_CalledProcessError
    (fun e =>
       logger ERROR ("Failed to read metadata: " +:+ exn_str e) ;;;
       cache_store file_path (JObj [])).

Definition get_current_metadata (file_path : string) : M json :=
  present <- cache_has file_path ;;
  (if negb present then probe_and_store file_path else ret tt) ;;;
  cache_lookup file_path.

Definition build_metadata_args (profile : dict) (custom_date : option string)
  : list string :=
  let args :=
    fold_left
      (fun args kv => args ++ ["-metadata"; fst kv +:+ "=" +:+ snd kv])
      profile [] in
  match custom_date with
  | Some d =>
      if PyStr.truthy d then args ++ ["-metadata"; "creation_time=" +:+ d]
      else args
  | None => args
  end.

(** [MP4(path)]: opens the file and reads its tag structure. *)
Definition mp4_open (path : string) : M (option dict) :=
  fun st =>
    let st' := record_effect (Mp4Open path) st in
    match mp4_load w (effects st) path with
    | inl tags => (Ret tags, st')
    | inr e => (Raise e, st')
    end.

(** [video.save(path)], [video_tags] being the tags held by the video. *)
Definition mp4_write (path : string) (video_tags : option dict) : M unit :=
  fun st =>
    let st' := record_effect (Mp4Save path video_tags) st in
    match mp4_save w (effects st) path video_tags with
    | None => (Ret tt, st')
    | Some e => (Raise e, st')
    end.

Definition set_tags (tags : dict) (device_profile : dict)
  (custom_date : option string) : dict :=
  let tags :=
    fold_left (fun t kv => dict_set (fst kv) (snd kv) t) device_profile tags in
  match custom_date with
  | Some d => if PyStr.truthy d then dict_set "creation_time" d tags else tags
  | None => tags
  end.

(** The tag object is the video's own when the video has a non-empty one;
    otherwise a new MP4Tags() is filled, which the video does not hold. *)
Definition modify_metadata_mutagen (input_file output_file : string)
  (device_profile : dict) (custom_date : option string) : M bool :=
  if negb (String.eqb (PyStr.lower (PyPath.suffix input_file)) ".mp4") then
    logger WARNING "Mutagen supports only MP4 files. Skipping." ;;;
    ret false
  else
    try_catch
      (video_tags <- mp4_open input_file ;;
       let saved :=
         match video_tags with
         | Some t =>
             if dict_truthy t then Some (set_tags t device_profile custom_date)
             else video_tags
         | None => None
         end in
       mp4_write output_file saved ;;;
       logger INFO
         ("Metadata modified with mutagen. Output saved to " +:+ output_file) ;;;
       ret true)
      is_Exception
      (fun e => logger ERROR ("Mutagen error: " +:+ exn_str e) ;;; ret false).

Definition exiftool_cmd (input_file output_file : string)
  (device_profile : dict) (custom_date : option string) : list string :=
  let cmd :=
    ["exiftool"; "-o"; output_file]
    ++ List.map (fun kv => "-" +:+ fst kv +:+ "=" +:+ snd kv) device_profile in
  let cmd :=
    match custom_date with
    | Some d =>
        if PyStr.truthy d
        then (cmd ++ ["-CreateDate=" +:+ d]) ++ ["-ModifyDate=" +:+ d]
        else cmd
    | None => cmd
    end in
  cmd ++ ["-overwrite_original"; input_file].

Definition modify_metadata_exiftool (input_file output_file : string)
  (device_profile : dict) (custom_date : option string) : M bool :=
  try_catch
    (let cmd := exiftool_cmd input_file output_file device_profile custom_date in
     logger INFO ("Executing: " +:+ PyStr.join " " cmd) ;;;
     _ <- run cmd ;;
     logger INFO
       ("Metadata modified with ExifTool. Output saved to " +:+ output_file) ;;;
     ret true)
    is_CalledProcessError
    (fun e => logger ERROR ("ExifTool error: " +:+ exn_stderr e) ;;; ret false).

Definition ffmpeg_cmd (input_file output_file : string)
  (device_profile : dict) (custom_date : option string) : list string :=
  ["ffmpeg"; "-i"; input_file; "-c"; "copy"; "-map_metadata"; "0"]
  ++ build_metadata_args device_profile custom_date
  ++ ["-y"; output_file].

Definition modify_metadata_ffmpeg (input_file output_file : string)
  (device_profile : dict) (custom_date : option string) : M bool :=
  try_catch
    (let cmd := ffmpeg_cmd input_file output_file device_profile custom_date in
     logger INFO ("Executing: " +:+ PyStr.join " " cmd) ;;;
     _ <- run cmd ;;
     logger INFO
       ("Metadata successfully modified with FFmpeg. Output saved to "
        +:+ output_file) ;;;
     ret true)
    is_CalledProcessError
    (fun e => logger ERROR ("FFmpeg error: " +:+ exn_stderr e) ;;; ret false).

Definition backend : Type := string -> string -> dict -> option string -> M bool.

(** The dispatch table of [modify_metadata]. *)
Definition methods : list (string * backend) :=
  [ ("mutagen", modify_metadata_mutagen);
    ("exiftool", modify_metadata_exiftool);
    ("ffmpeg", modify_metadata_ffmpeg) ].

Definition modify_metadata (input_file output_file : string)
  (device_profile : dict) (custom_date : option string) (method : string)
  : M bool :=
  method <-
    (if negb (str_in method (List.map fst methods)) then
       logger ERROR
         ("Unsupported method: " +:+ method +:+ ". Falling back to FFmpeg.") ;;;
       ret "ffmpeg"
     else ret method) ;;
  match dict_get method methods with
  | Some f => f input_file output_file device_profile custom_date
  | None => raise (KeyError method)
  end.

Definition strip_cmd (input_file output_file : string) : list string :=
  ["ffmpeg"; "-i"; input_file; "-c"; "copy"; "-map_metadata"; "-1"; "-y";
   output_file].

Definition strip_metadata (input_file output_file : string) : M bool :=
  try_catch
    (let cmd := strip_cmd input_file output_file in
     logger INFO ("Executing: " +:+ PyStr.join " " cmd) ;;;
     _ <- run cmd ;;
     logger INFO ("Metadata stripped. Output saved to " +:+ output_file) ;;;
     ret true)
    is_CalledProcessError
    (fun e => logger ERROR ("FFmpeg error: " +:+ exn_stderr e) ;;; ret false).

(** [with open(path, 'r') as f: return json.load(f)] *)
Definition open_and_load (profile_path : string) : M dict :=
  fun st =>
    let st' := record_effect (OpenRead profile_path) st in
    match load_json_file w (effects st) profile_path with
    | inl d => (Ret d, st')
    | inr e => (Raise e, st')
    end.

Definition load_custom_profile (profile_path : string) : M dict :=
  try_catch
    (open_and_load profile_path)
    is_Exception
    (fun e =>
       logger ERROR ("Failed to load custom profile: " +:+ exn_str e) ;;;
       ret []).

End Modifier.

(* --------------------------------------------------------------------- *)
(* Command surface                                                       *)
(* --------------------------------------------------------------------- *)

(** The argparse Namespace: an option that was not given is [None]
    (['ffmpeg'] for --method, [false] for the store_true flags). *)
Record Namespace := {
  args_input : option string;
  args_output : option string;
  args_device : option string;
  args_custom_profile : option string;
  args_custom_date : option string;
  args_strip : bool;
  args_list_devices : bool;
  args_gui : bool;
  args_show_metadata : option string;
  args_method : string
}.

(** The value of an option at a point where the code has checked that it
    is set. *)
Definition str_of (o : option string) : string :=
  match o with Some s => s | None => "" end.

(** [parser.error(msg)]: argparse prints the usage with the message on
    standard error and exits with status 2. *)
Definition parser_error {A} (msg : string) : M A :=
  bind (logger USAGE msg) (fun _ => sys_exit 2).

Definition method_choices : list string := ["ffmpeg"; "mutagen"; "exiftool"].

(** [parser.parse_args()], as far as the [choices] of --device and
    --method go: a value outside the choices is a usage error. *)
Definition parse_args (argv : Namespace) : M Namespace :=
  match args_device argv with
  | Some d =>
      if negb (str_in d (List.map fst get_device_profiles))
      then parser_error ("argument --device: invalid choice: " +:+ d)
      else ret tt
  | None => ret tt
  end ;;;
  (if negb (str_in (args_method argv) method_choices)
   then parser_error ("argument --method: invalid choice: " +:+ args_method argv)
   else ret tt) ;;;
  ret argv.

Section Main.

Variable w : World.

(** [VideoMetadataGUI()] followed by [gui.run()]: the tools are checked,
    then the form runs until its window is closed; what the form does
    while it runs is left to the environment. *)
Definition launch_gui : M unit :=
  check_tools w ;;;
  (fun st =>
     let st' := record_effect GuiSession st in
     match gui_session w (effects st) with
     | None => (Ret tt, st')
     | Some e => (Raise e, st')
     end).

Fixpoint print_devices (names : list string) : M unit :=
  match names with
  | [] => ret tt
  | device :: rest => print (Line ("  - " +:+ device)) ;;; print_devices rest
  end.

(** [get_device_profiles().get(args.device, {})] *)
Definition named_profile (device : option string) : dict :=
  match device with
  | Some d =>
      match dict_get d get_device_profiles with
      | Some p => p
      | None => []
      end
  | None => []
  end.

(** The if/else of the final try block of main that computes [success]:
    strip, or resolve the profile and modify. *)
Definition write_operation (args : Namespace) : M bool :=
  let input := str_of (args_input args) in
  let output := str_of (args_output args) in
  if args_strip args then strip_metadata w input output
  else
    profile <-
      (if PyStr.truthy_opt (args_custom_profile args)
       then load_custom_profile w (str_of (args_custom_profile args))
       else ret (named_profile (args_device args))) ;;
    (if negb (dict_truthy profile)
        && negb (PyStr.truthy_opt (args_custom_profile args))
     then logger ERROR "Invalid device profile" ;;; sys_exit 1
     else ret tt) ;;;
    modify_metadata w input output profile (args_custom_date args)
      (args_method args).

(** The body of the final try block of main. *)
Definition process (args : Namespace) : M unit :=
  let input := str_of (args_input args) in
  let output := str_of (args_output args) in
  check_tools w ;;;
  valid <- validate_input_file w input ;;
  (if negb valid then sys_exit 1 else ret tt) ;;;
  success <- write_operation args ;;
  if success : bool then
    print (Line ("Successfully "
                 +:+ (if args_strip args then "stripped" else "modified")
                 +:+ " metadata. Output saved to: " +:+ output))
  else
    print (Line ("Failed to "
                 +:+ (if args_strip args then "strip" else "modify")
                 +:+ " metadata.")) ;;;
    sys_exit 1.

(** main, from the parsed arguments on. *)
Definition main_run (args : Namespace) : M unit :=
  if args_gui args then
    try_catch launch_gui is_Exception
      (fun e =>
         logger ERROR ("Failed to launch GUI: " +:+ exn_str e) ;;; sys_exit 1)
  else if args_list_devices args then
    print (Line "Available device profiles:") ;;;
    print_devices (List.map fst get_device_profiles)
  else if PyStr.truthy_opt (args_show_metadata args) then
    let path := str_of (args_show_metadata args) in
    try_catch
      (check_tools w ;;;
       valid <- validate_input_file w path ;;
       if valid : bool then
         metadata <- get_current_metadata w path ;;
         print (JsonDump metadata)
       else ret tt)
      is_Exception
      (fun e =>
         logger ERROR ("Failed to read metadata: " +:+ exn_str e) ;;; sys_exit 1)
  else if negb (PyStr.truthy_opt (args_input args))
          || negb (PyStr.truthy_opt (args_output args)) then
    parser_error
      "--input and --output are required for metadata modification or stripping"
  else if args_strip args
          && (PyStr.truthy_opt (args_device args)
              || PyStr.truthy_opt (args_custom_profile args)
              || PyStr.truthy_opt (args_custom_date args)) then
    parser_error
      "--strip cannot be used with --device, --custom-profile, or --custom-date"
  else if negb (args_strip args)
          && negb (PyStr.truthy_opt (args_device args))
          && negb (PyStr.truthy_opt (args_custom_profile args)) then
    parser_error
      "Either --device, --custom-profile, or --strip must be specified"
  else
    try_catch (process args) is_Exception
      (fun e =>
         logger ERROR ("An error occurred: " +:+ exn_str e) ;;; sys_exit 1).

Definition main (argv : Namespace) : M unit :=
  args <- parse_args argv ;;
  main_run args.

End Main.

(* --------------------------------------------------------------------- *)
(* Concrete environments and command lines                               *)
(* --------------------------------------------------------------------- *)

Definition a_stat : file_stat :=
  {| st_size := 2097152;
     st_created := "2024-01-01 10:00:00";
     st_modified := "2024-01-02 11:30:00" |}.

(** Every file exists, every tool succeeds, profile files hold one entry. *)
Definition friendly_world : World :=
  {| path_exists := fun _ _ => true;
     subprocess_run := fun _ _ => ProcOk "{}";
     json_loads := fun _ => inl (JObj [("format", JObj [])]);
     stat_file := fun _ _ => inl a_stat;
     load_json_file := fun _ _ => inl [("make", "Acme")];
     mp4_load := fun _ _ => inl None;
     mp4_save := fun _ _ _ => None;
     gui_session := fun _ => None |}.

(** As [friendly_world], but no profile file can be opened. *)
Definition no_profile_world : World :=
  {| path_exists := fun _ _ => true;
     subprocess_run := fun _ _ => ProcOk "{}";
     json_loads := fun _ => inl (JObj [("format", JObj [])]);
     stat_file := fun _ _ => inl a_stat;
     load_json_file :=
       fun _ _ => inr (FileNotFoundError "No such file or directory");
     mp4_load := fun _ _ => inl None;
     mp4_save := fun _ _ _ => None;
     gui_session := fun _ => None |}.

Definition is_prefix_cmd (tool : string) (cmd : list string) : bool :=
  match cmd with
  | t :: _ => String.eqb t tool
  | [] => false
  end.

(** As [friendly_world], but the programs named in [missing] do not
    exist and those named in [failing] exit with a non-zero status. *)
Definition tools_world (missing failing : list string) : World :=
  {| path_exists := fun _ _ => true;
     subprocess_run :=
       fun _ cmd =>
         if List.existsb (fun t => is_prefix_cmd t cmd) missing
         then ProcNotFound "No such file or directory"
         else if List.existsb (fun t => is_prefix_cmd t cmd) failing
         then ProcFailed "returned non-zero exit status 1." "tool failed"
         else ProcOk "{}";
     json_loads := fun _ => inl (JObj [("format", JObj [])]);
     stat_file := fun _ _ => inl a_stat;
     load_json_file := fun _ _ => inl [("make", "Acme")];
     mp4_load := fun _ _ => inl None;
     mp4_save := fun _ _ _ => None;
     gui_session := fun _ => None |}.


Definition no_args : Namespace :=
  {| args_input := None; args_output := None; args_device := None;
     args_custom_profile := None; args_custom_date := None;
     args_strip := false; args_list_devices := false; args_gui := false;
     args_show_metadata := None; args_method := "ffmpeg" |}.

Definition strip_args (input output : string) : Namespace :=
  {| args_input := Some input; args_output := Some output;
     args_device := None; args_custom_profile := None;
     args_custom_date := None; args_strip := true;
     args_list_devices := false; args_gui := false;
     args_show_metadata := None; args_method := "ffmpeg" |}.

Definition device_args (input output device method : string) : Namespace :=
  {| args_input := Some input; args_output := Some output;
     args_device := Some device; args_custom_profile := None;
     args_custom_date := None; args_strip := false;
     args_list_devices := false; args_gui := false;
     args_show_metadata := None; args_method := method |}.


Definition show_args (path : string) : Namespace :=
  {| args_input := None; args_output := None; args_device := None;
     args_custom_profile := None; args_custom_date := None;
     args_strip := false; args_list_devices := false; args_gui := false;
     args_show_metadata := Some path; args_method := "ffmpeg" |}.

(* --------------------------------------------------------------------- *)
(* pathlib.Path (POSIX flavour): parent, stem, joining and str           *)
(* --------------------------------------------------------------------- *)

Module PurePath.

(** A parsed path: its root ("", "/" or "//") and its components. *)
Record t := { root : string; parts : list string }.

Fixpoint leading_slashes (p : string) : nat :=
  match p with
  | String c r => if Ascii.eqb c "/" then S (leading_slashes r) else O
  | EmptyString => O
  end.

(** POSIX keeps exactly two leading slashes; any other number is one. *)
Definition root_of (p : string) : string :=
  match leading_slashes p with
  | O => ""
  | 2 => "//"
  | _ => "/"
  end.

(** [Path(p)] *)
Definition parse (p : string) : t :=
  {| root := root_of p; parts := PyPath.parts p |}.

(** [str(path)] *)
Definition str (x : t) : string :=
  match root x, parts x with
  | EmptyString, [] => "."
  | r, ps => r +:+ PyStr.join "/" ps
  end.

(** [path.name] *)
Definition name (x : t) : string := List.last (parts x) "".

(** [s[:i]] *)
Fixpoint take_str (i : nat) (s : string) : string :=
  match i, s with
  | S j, String c r => String c (take_str j r)
  | _, _ => EmptyString
  end.

(** The index of the dot that starts the suffix of a name, if it has one. *)
Definition suffix_index (n : string) : option nat :=
  match PyStr.rfind "." n with
  | Some i =>
      if (0 <? i)%nat && (i <? String.length n - 1)%nat then Some i else None
  | None => None
  end.

(** [path.suffix] *)
Definition suffix (x : t) : string :=
  match suffix_index (name x) with
  | Some i => PyStr.drop_str i (name x)
  | None => ""
  end.

(** [path.stem] *)
Definition stem (x : t) : string :=
  match suffix_index (name x) with
  | Some i => take_str i (name x)
  | None => name x
  end.

(** [path.parent]: the path without its final component. *)
Definition parent (x : t) : t :=
  {| root := root x; parts := List.removelast (parts x) |}.

(** [path / segment] for a string segment: an absolute segment replaces
    the path, a relative one adds its components. *)
Definition joinpath (x : t) (segment : string) : t :=
  match root_of segment with
  | EmptyString =>
      {| root := root x; parts := parts x ++ PyPath.parts segment |}
  | _ => parse segment
  end.

End PurePath.

(* --------------------------------------------------------------------- *)
(* VideoMetadataModifier.save_profile and the desktop form               *)
(* --------------------------------------------------------------------- *)

Module Form.

(** The Tk variables and widget states that the handlers read and set. *)
Record form := {
  input_file_var : string;
  output_file_var : string;
  device_var : string;
  metadata_text : string;
  custom_date_var : bool;
  date_entry : string;
  action_var : string;
  method_var : string;
  status_var : string;
  process_button_enabled : bool;
  progress_running : bool
}.

(** What the form does towards the user and the disk besides running the
    operations of the modifier: message boxes and profile files written. *)
Inductive event :=
| ShowInfo (title message : string)
| ShowError (title message : string)
| WriteJson (path : string) (profile : dict).

(** The desktop: the form, the events so far, and the process state of
    the modifier. *)
Record desk := {
  frm : form;
  events : list event;
  proc : state
}.

Definition G (A : Type) : Type := desk -> result A * desk.

Definition gret {A} (a : A) : G A := fun d => (Ret a, d).

Definition gbind {A B} (m : G A) (k : A -> G B) : G B :=
  fun d =>
    match m d with
    | (Ret a, d') => k a d'
    | (Raise e, d') => (Raise e, d')
    | (Exit c, d') => (Exit c, d')
    end.

Definition gtry {A} (m : G A) (handles : exn -> bool) (h : exn -> G A) : G A :=
  fun d =>
    match m d with
    | (Raise e, d') => if handles e then h e d' else (Raise e, d')
    | other => other
    end.

(** An operation of the modifier, run from the form. *)
Definition lift {A} (m : M A) : G A :=
  fun d =>
    let (r, s) := m (proc d) in
    (r, {| frm := frm d; events := events d; proc := s |}).

(** Reading the form. *)
Definition get {A} (f : form -> A) : G A := fun d => (Ret (f (frm d)), d).

(** Changing the form. *)
Definition set (f : form -> form) : G unit :=
  fun d =>
    (Ret tt, {| frm := f (frm d); events := events d; proc := proc d |}).

Definition emit (e : event) : G unit :=
  fun d =>
    (Ret tt, {| frm := frm d; events := events d ++ [e]; proc := proc d |}).

Notation "x <~ m ;; k" := (gbind m (fun x => k))
  (at level 100, m at next level, right associativity).
Notation "m ;;~ k" := (gbind m (fun _ => k))
  (at level 100, right associativity).

Definition set_input_file (v : string) (f : form) : form :=
  {| input_file_var := v; output_file_var := output_file_var f;
     device_var := device_var f; metadata_text := metadata_text f;
     custom_date_var := custom_date_var f; date_entry := date_entry f;
     action_var := action_var f; method_var := method_var f;
     status_var := status_var f;
     process_button_enabled := process_button_enabled f;
     progress_running := progress_running f |}.

Definition set_output_file (v : string) (f : form) : form :=
  {| input_file_var := input_file_var f; output_file_var := v;
     device_var := device_var f; metadata_text := metadata_text f;
     custom_date_var := custom_date_var f; date_entry := date_entry f;
     action_var := action_var f; method_var := method_var f;
     status_var := status_var f;
     process_button_enabled := process_button_enabled f;
     progress_running := progress_running f |}.

Definition set_device (v : string) (f : form) : form :=
  {| input_file_var := input_file_var f; output_file_var := output_file_var f;
     device_var := v; metadata_text := metadata_text f;
     custom_date_var := custom_date_var f; date_entry := date_entry f;
     action_var := action_var f; method_var := method_var f;
     status_var := status_var f;
     process_button_enabled := process_button_enabled f;
     progress_running := progress_running f |}.

Definition set_metadata_text (v : string) (f : form) : form :=
  {| input_file_var := input_file_var f; output_file_var := output_file_var f;
     device_var := device_var f; metadata_text := v;
     custom_date_var := custom_date_var f; date_entry := date_entry f;
     action_var := action_var f; method_var := method_var f;
     status_var := status_var f;
     process_button_enabled := process_button_enabled f;
     progress_running := progress_running f |}.

Definition set_status (v : string) (f : form) : form :=
  {| input_file_var := input_file_var f; output_file_var := output_file_var f;
     device_var := device_var f; metadata_text := metadata_text f;
     custom_date_var := custom_date_var f; date_entry := date_entry f;
     action_var := action_var f; method_var := method_var f;
     status_var := v;
     process_button_enabled := process_button_enabled f;
     progress_running := progress_running f |}.

Definition set_button (v : bool) (f : form) : form :=
  {| input_file_var := input_file_var f; output_file_var := output_file_var f;
     device_var := device_var f; metadata_text := metadata_text f;
     custom_date_var := custom_date_var f; date_entry := date_entry f;
     action_var := action_var f; method_var := method_var f;
     status_var := status_var f;
     process_button_enabled := v;
     progress_running := progress_running f |}.

Definition set_progress (v : bool) (f : form) : form :=
  {| input_file_var := input_file_var f; output_file_var := output_file_var f;
     device_var := device_var f; metadata_text := metadata_text f;
     custom_date_var := custom_date_var f; date_entry := date_entry f;
     action_var := action_var f; method_var := method_var f;
     status_var := status_var f;
     process_button_enabled := process_button_enabled f;
     progress_running := v |}.

(** [s.capitalize()]: the first character in upper case, the rest in
    lower case. *)
Definition capitalize (s : string) : string :=
  match s with
  | EmptyString => EmptyString
  | String c r => String (PyStr.upper_ascii c) (PyStr.lower r)
  end.

Definition newline : string := String (ascii_of_nat 10) EmptyString.

Section Handlers.

Variable w : World.

(** [open(save_path, 'w')] followed by [json.dump(profile, f, indent=2)]:
    [None] when the file was written, the exception otherwise. *)
Variable dump_json_file : list event -> string -> dict -> option exn.

Definition open_and_dump (profile : dict) (save_path : string) : G unit :=
  fun d =>
    let d' := {| frm := frm d;
                 events := events d ++ [WriteJson save_path profile];
                 proc := proc d |} in
    match dump_json_file (events d) save_path profile with
    | None => (Ret tt, d')
    | Some e => (Raise e, d')
    end.

(** VideoMetadataModifier.save_profile *)
Definition save_profile (profile : dict) (save_path : string) : G bool :=
  gtry
    (open_and_dump profile save_path ;;~ gret true)
    is_Exception
    (fun e =>
       lift (logger ERROR ("Failed to save profile: " +:+ exn_str e)) ;;~
       gret false).

(** The output path that browse_input_file proposes for an input file. *)
Definition suggested_output (filename : string) : string :=
  let path := PurePath.parse filename in
  let output_name :=
    PurePath.stem path +:+ "_processed" +:+ PurePath.suffix path in
  PurePath.str (PurePath.joinpath (PurePath.parent path) output_name).

(** browse_input_file, [filename] being what the file dialog returns (the
    empty string when it is cancelled). *)
Definition browse_input_file (filename : string) : G unit :=
  if PyStr.truthy filename then
    set (set_input_file filename) ;;~
    set (set_output_file (suggested_output filename))
  else gret tt.

Definition browse_output_file (filename : string) : G unit :=
  if PyStr.truthy filename then set (set_output_file filename) else gret tt.

Definition preview_text (profile : dict) : string :=
  fold_left
    (fun text kv =>
       text +:+ (capitalize (fst kv) +:+ ": " +:+ snd kv +:+ newline))
    profile
    ("Selected Profile Metadata:" +:+ newline +:+ newline).

Definition update_metadata_preview (profile : dict) : G unit :=
  set (set_metadata_text (preview_text profile)).

Definition on_device_selected : G unit :=
  device <~ get device_var ;;
  match dict_get device get_device_profiles with
  | Some profile => update_metadata_preview profile
  | None => gret tt
  end.

(** The form's load_custom_profile, [filename] from the file dialog. *)
Definition load_custom_profile (filename : string) : G unit :=
  if PyStr.truthy filename then
    profile <~ lift (load_custom_profile w filename) ;;
    if dict_truthy profile then
      update_metadata_preview profile ;;~
      set (set_device "Custom Profile") ;;~
      emit (ShowInfo "Success" "Custom profile loaded successfully!")
    else gret tt
  else gret tt.

(** save_current_profile, [filename] being what the save dialog returns;
    the dialog is opened only for a device of the table. *)
Definition save_current_profile (filename : string) : G unit :=
  device <~ get device_var ;;
  match dict_get device get_device_profiles with
  | Some profile =>
      if PyStr.truthy filename then
        saved <~ save_profile profile filename ;;
        if saved : bool then
          emit (ShowInfo "Success" "Profile saved successfully!")
        else emit (ShowError "Error" "Failed to save profile.")
      else gret tt
  | None => gret tt
  end.

(** The body of the worker thread that process_video starts. *)
Definition process_thread : G unit :=
  set (set_progress true) ;;~
  set (set_button false) ;;~
  set (set_status "Processing...") ;;~
  action <~ get action_var ;;
  input <~ get input_file_var ;;
  output <~ get output_file_var ;;
  let finish (success : bool) : G unit :=
    set (set_progress false) ;;~
    set (set_button true) ;;~
    if success then
      set (set_status "Processing completed successfully!") ;;~
      emit (ShowInfo "Success"
              ("Video "
               +:+ (if String.eqb action "modify" then "metadata modified"
                    else "metadata stripped")
               +:+ " successfully!"))
    else
      set (set_status "Processing failed.") ;;~
      emit (ShowError "Error"
              ("Failed to "
               +:+ (if String.eqb action "modify" then "modify" else "strip")
               +:+ " video metadata.")) in
  if String.eqb action "modify" then
    device <~ get device_var ;;
    let profile :=
      match dict_get device get_device_profiles with
      | Some p => p
      | None => []
      end in
    if negb (dict_truthy profile) && negb (String.eqb device "Custom Profile")
    then set (set_status "Invalid device profile.")
    else
      use_date <~ get custom_date_var ;;
      date <~ get date_entry ;;
      method <~ get method_var ;;
      let custom_date := if use_date : bool then Some date else None in
      success <~ lift (modify_metadata w input output profile custom_date
                         method) ;;
      finish success
  else if String.eqb action "strip" then
    success <~ lift (strip_metadata w input output) ;;
    finish success
  else finish false.

(** process_video up to the start of the worker thread: the result tells
    whether the thread is started. *)
Definition process_video : G bool :=
  input <~ get input_file_var ;;
  output <~ get output_file_var ;;
  if negb (PyStr.truthy input) || negb (PyStr.truthy output) then
    emit (ShowError "Error" "Please select input and output files.") ;;~
    gret false
  else
    action <~ get action_var ;;
    device <~ get device_var ;;
    if String.eqb action "modify" && negb (PyStr.truthy device) then
      emit (ShowError "Error"
              "Please select a device profile for modification.") ;;~
      gret false
    else
      valid <~ lift (validate_input_file w input) ;;
      if negb valid then
        emit (ShowError "Error" "Invalid input file.") ;;~ gret false
      else gret true.

End Handlers.

End Form.

(* ===================================================================== *)
(* Properties                                                            *)
(* ===================================================================== *)

(* --------------------------------------------------------------------- *)
(* Strings and paths                                                     *)
(* --------------------------------------------------------------------- *)

(** [c in s] *)
Fixpoint contains (c : ascii) (s : string) : bool :=
  match s with
  | EmptyString => false
  | String d r => Ascii.eqb d c || contains c r
  end.

Lemma app_cons (c : ascii) (s t : string) :
  String c s +:+ t = String c (s +:+ t).
Proof. reflexivity. Qed.

Lemma app_empty_l (s : string) : "" +:+ s = s.
Proof. reflexivity. Qed.

Lemma app_assoc_str (a b c : string) : (a +:+ b) +:+ c = a +:+ (b +:+ c).
Proof.
  induction a as [|x a IH]; [reflexivity|].
  rewrite !app_cons. now rewrite IH.
Qed.

Lemma contains_app (c : ascii) (a b : string) :
  contains c (a +:+ b) = contains c a || contains c b.
Proof.
  induction a as [|x a IH]; [reflexivity|].
  rewrite app_cons. simpl. rewrite IH. now rewrite orb_assoc.
Qed.

Lemma length_app_str (a b : string) :
  String.length (a +:+ b) = (String.length a + String.length b)%nat.
Proof.
  induction a as [|x a IH]; [reflexivity|].
  rewrite app_cons. simpl. now rewrite IH.
Qed.

Lemma split_acc_no_sep (sep : ascii) (s cur : string) :
  contains sep s = false -> PyStr.split_acc sep cur s = [cur +:+ s].
Proof.
  revert cur. induction s as [|c s IH]; intros cur H; simpl in *.
  - f_equal. induction cur as [|x cur IHc]; [reflexivity|].
    rewrite app_cons. now rewrite <- IHc.
  - apply orb_false_iff in H as [Hc Hs]. rewrite Hc.
    rewrite (IH _ Hs). now rewrite app_assoc_str.
Qed.

Lemma split_acc_app (sep : ascii) (a b cur : string) :
  PyStr.split_acc sep cur (a +:+ String sep b)
  = PyStr.split_acc sep cur a ++ PyStr.split_acc sep "" b.
Proof.
  revert cur. induction a as [|c a IH]; intros cur.
  - rewrite app_empty_l. simpl. now rewrite Ascii.eqb_refl.
  - rewrite app_cons. simpl. destruct (Ascii.eqb c sep).
    + now rewrite IH.
    + apply IH.
Qed.

Lemma rfind_absent (c : ascii) (s : string) :
  contains c s = false -> PyStr.rfind c s = None.
Proof.
  induction s as [|d s IH]; [reflexivity|]. simpl. intros H.
  apply orb_false_iff in H as [Hd Hs]. now rewrite (IH Hs), Hd.
Qed.

Lemma rfind_last (c : ascii) (a b : string) :
  contains c b = false ->
  PyStr.rfind c (a +:+ String c b) = Some (String.length a).
Proof.
  intros Hb. induction a as [|d a IH].
  - rewrite app_empty_l. simpl. now rewrite (rfind_absent _ _ Hb), Ascii.eqb_refl.
  - rewrite app_cons. simpl. now rewrite IH.
Qed.

Lemma drop_str_app (a b : string) : PyStr.drop_str (String.length a) (a +:+ b) = b.
Proof.
  induction a as [|d a IH]; [now destruct b|].
  rewrite app_cons. simpl. apply IH.
Qed.

(** A path made of a directory prefix (empty, or ending in a slash) and a
    final component [base]. *)
Definition dir_prefix (pre : string) : Prop :=
  pre = "" \/ exists d, pre = d +:+ "/".

Lemma name_of_base (pre base : string) :
  dir_prefix pre ->
  contains "/" base = false ->
  PyPath.kept base = true ->
  PyPath.name (pre +:+ base) = base.
Proof.
  intros [-> | [d ->]] Hs Hk; unfold PyPath.name, PyPath.parts, PyStr.split.
  - rewrite app_empty_l, (split_acc_no_sep _ _ _ Hs), app_empty_l.
    simpl. now rewrite Hk.
  - rewrite app_assoc_str. change ("/" +:+ base) with (String "/" base).
    rewrite split_acc_app, (split_acc_no_sep _ _ _ Hs), app_empty_l.
    rewrite List.filter_app. simpl. rewrite Hk. apply List.last_last.
Qed.

Lemma kept_with_stem (stem rest : string) :
  stem <> "" -> PyPath.kept (stem +:+ String "." rest) = true.
Proof.
  intros Hne. destruct stem as [|c stem]; [congruence|].
  rewrite app_cons. unfold PyPath.kept.
  destruct stem as [|c' stem]; simpl;
    destruct (Ascii.eqb c "."); reflexivity.
Qed.

(** The suffix of [pre/stem.ext] is [.ext] when the stem is not empty and
    the extension is not empty and has no dot. *)
Lemma suffix_of_stem_ext (pre stem ext : string) :
  dir_prefix pre ->
  stem <> "" -> ext <> "" ->
  contains "/" stem = false -> contains "/" ext = false ->
  contains "." ext = false ->
  PyPath.suffix (pre +:+ stem +:+ String "." ext) = String "." ext.
Proof.
  intros Hpre Hstem Hext Hs1 Hs2 Hdot. unfold PyPath.suffix.
  rewrite name_of_base; auto.
  - rewrite (rfind_last _ _ _ Hdot), length_app_str. simpl.
    destruct stem as [|c stem]; [congruence|].
    destruct ext as [|e ext]; [congruence|]. simpl.
    replace ((String.length stem + S (S (String.length ext)) - 0)%nat)
      with (S (S (String.length stem + String.length ext))) by lia.
    assert (Hlt : (S (String.length stem)
                   <? S (S (String.length stem + String.length ext)))%nat = true)
      by (apply Nat.ltb_lt; lia).
    rewrite Hlt. simpl. apply drop_str_app.
  - rewrite contains_app. simpl. now rewrite Hs1, Hs2.
  - now apply kept_with_stem.
Qed.

Lemma str_in_In (x : string) (xs : list string) :
  str_in x xs = true <-> In x xs.
Proof.
  unfold str_in. rewrite List.existsb_exists. split.
  - intros [y [Hy He]]. apply String.eqb_eq in He. now subst.
  - intros H. exists x. split; [assumption | apply String.eqb_refl].
Qed.

(* --------------------------------------------------------------------- *)
(* Metadata reader: input validation                                     *)
(* --------------------------------------------------------------------- *)

(** What [validate_input_file] returns, as one boolean expression. *)
Lemma validate_input_file_value (w : World) (path : string) (st : state) :
  fst (validate_input_file w path st)
  = Ret (path_exists w (effects st) path
         && str_in (PyStr.lower (PyPath.suffix path)) SUPPORTED_FORMATS).
Proof.
  unfold validate_input_file, bind, os_path_exists, ret, logger.
  destruct (path_exists w (effects st) path);
    destruct (str_in (PyStr.lower (PyPath.suffix path)) SUPPORTED_FORMATS);
    reflexivity.
Qed.

(** [validate_input_file] only reads the environment and writes to the
    log. *)
Lemma validate_input_file_frame (w : World) (path : string) (st : state) :
  let st' := snd (validate_input_file w path st) in
  effects st' = effects st /\ cache st' = cache st /\ stdout st' = stdout st.
Proof.
  unfold validate_input_file, bind, os_path_exists, ret, logger.
  destruct (path_exists w (effects st) path);
    destruct (str_in (PyStr.lower (PyPath.suffix path)) SUPPORTED_FORMATS);
    simpl; auto.
Qed.


(* --------------------------------------------------------------------- *)
(* Metadata writer: the transcode backend                                *)
(* --------------------------------------------------------------------- *)

(** One tag assignment of the transcode tool. *)
Definition metadata_pair (kv : string * string) : list string :=
  ["-metadata"; fst kv +:+ "=" +:+ snd kv].

Lemma extend_loop_flat_map (profile : dict) (acc : list string) :
  fold_left (fun args kv => args ++ ["-metadata"; fst kv +:+ "=" +:+ snd kv])
    profile acc
  = acc ++ flat_map metadata_pair profile.
Proof.
  revert acc. induction profile as [|kv profile IH]; intros acc; simpl.
  - now rewrite List.app_nil_r.
  - rewrite IH. now rewrite <- List.app_assoc.
Qed.

Lemma build_metadata_args_no_date (profile : dict) (custom_date : option string) :
  PyStr.truthy_opt custom_date = false ->
  build_metadata_args profile custom_date = flat_map metadata_pair profile.
Proof.
  unfold build_metadata_args. rewrite extend_loop_flat_map. simpl.
  destruct custom_date as [d|]; simpl; [|reflexivity].
  now intros ->.
Qed.

Lemma build_metadata_args_date (profile : dict) (d : string) :
  d <> "" ->
  build_metadata_args profile (Some d)
  = flat_map metadata_pair profile ++ ["-metadata"; "creation_time=" +:+ d].
Proof.
  intros Hd. unfold build_metadata_args. rewrite extend_loop_flat_map. simpl.
  destruct d; [congruence | reflexivity].
Qed.

(** The transcode backend runs exactly one external command, its own. *)
Lemma modify_metadata_ffmpeg_effects (w : World) (input output : string)
  (profile : dict) (custom_date : option string) (st : state) :
  effects (snd (modify_metadata_ffmpeg w input output profile custom_date st))
  = effects st ++ [Run (ffmpeg_cmd input output profile custom_date)].
Proof.
  unfold modify_metadata_ffmpeg, try_catch, bind, logger, run, ret. simpl.
  destruct (subprocess_run w (effects st) _); reflexivity.
Qed.

(** [s] assigns the creation_time tag. *)
Definition is_creation_time (s : string) : bool :=
  String.prefix "creation_time=" s.

(** C6, the claim as stated fails: an override timestamp that is present
    but empty ([--custom-date ""]) adds no creation_time assignment to the
    command of the transcode backend. *)
Lemma ffmpeg_empty_date_no_creation_time :
  let custom_date := Some "" in
  custom_date <> None
  /\ ffmpeg_cmd "in.mp4" "out.mp4" [("make", "Apple")] custom_date
     = ["ffmpeg"; "-i"; "in.mp4"; "-c"; "copy"; "-map_metadata"; "0";
        "-metadata"; "make=Apple"; "-y"; "out.mp4"]
  /\ List.existsb is_creation_time
       (ffmpeg_cmd "in.mp4" "out.mp4" [("make", "Apple")] custom_date) = false.
Proof. repeat split; [discriminate | reflexivity..]. Qed.

(** C6, amended. The command of the transcode backend copies the streams
    (-c copy), passes -map_metadata 0, holds one -metadata key=value pair
    per entry of the mapping, in order, and after them one
    creation_time pair exactly when the override timestamp is present and
    not the empty string; this command is the one external command that
    the backend runs. *)
Theorem ffmpeg_command_shape (input output : string) (profile : dict)
  (custom_date : option string) :
  (exists date_part,
     ffmpeg_cmd input output profile custom_date
     = ["ffmpeg"; "-i"; input; "-c"; "copy"; "-map_metadata"; "0"]
       ++ flat_map metadata_pair profile ++ date_part ++ ["-y"; output]
     /\ (forall d, custom_date = Some d -> d <> "" ->
         date_part = ["-metadata"; "creation_time=" +:+ d])
     /\ (custom_date = None \/ custom_date = Some "" -> date_part = []))
  /\ length (flat_map metadata_pair profile) = (2 * length profile)%nat
  /\ (forall w st,
        effects (snd (modify_metadata_ffmpeg w input output profile
                        custom_date st))
        = effects st ++ [Run (ffmpeg_cmd input output profile custom_date)]).
Proof.
  split; [|split].
  - unfold ffmpeg_cmd. destruct custom_date as [[|c d]|].
    + exists []. rewrite build_metadata_args_no_date by reflexivity.
      split; [reflexivity|]. split; [intros d Hd; congruence | reflexivity].
    + exists ["-metadata"; "creation_time=" +:+ String c d].
      rewrite build_metadata_args_date by discriminate.
      rewrite <- List.app_assoc.
      split; [reflexivity|]. split.
      * intros d' Hd' _. now injection Hd' as <-.
      * intros [H | H]; discriminate.
    + exists []. rewrite build_metadata_args_no_date by reflexivity.
      split; [reflexivity|]. split; [intros d Hd; congruence | reflexivity].
  - induction profile as [|kv profile IH]; simpl; [reflexivity|].
    rewrite IH. lia.
  - intros w st. apply modify_metadata_ffmpeg_effects.
Qed.

Lemma ffmpeg_command_shape_witness :
  exists date_part,
    ffmpeg_cmd "in.mp4" "out.mp4" [("make", "Apple")] (Some "2024-05-01 12:00:00")
    = ["ffmpeg"; "-i"; "in.mp4"; "-c"; "copy"; "-map_metadata"; "0"]
      ++ flat_map metadata_pair [("make", "Apple")] ++ date_part
      ++ ["-y"; "out.mp4"]
    /\ date_part = ["-metadata"; "creation_time=2024-05-01 12:00:00"].
Proof.
  destruct (ffmpeg_command_shape "in.mp4" "out.mp4" [("make", "Apple")]
              (Some "2024-05-01 12:00:00")) as [[dp [Hc [Hd _]]] _].
  exists dp. split; [exact Hc|].
  apply (Hd "2024-05-01 12:00:00"); [reflexivity | discriminate].
Defined.

(* --------------------------------------------------------------------- *)
(* Metadata writer: dispatch                                             *)
(* --------------------------------------------------------------------- *)

Definition fallback_message (method : string) : string :=
  "Unsupported method: " +:+ method +:+ ". Falling back to FFmpeg.".

Definition with_log (lvl : level) (msg : string) (st : state) : state :=
  snd (logger lvl msg st).

Definition is_warning (r : level * string) : bool :=
  match fst r with WARNING => true | _ => false end.

Lemma modify_metadata_ffmpeg_name (w : World) (input output : string)
  (profile : dict) (custom_date : option string) (st : state) :
  modify_metadata w input output profile custom_date "ffmpeg" st
  = modify_metadata_ffmpeg w input output profile custom_date st.
Proof. reflexivity. Qed.

Lemma modify_metadata_fallback (w : World) (input output : string)
  (profile : dict) (custom_date : option string) (method : string)
  (st : state) :
  str_in method ["mutagen"; "exiftool"; "ffmpeg"] = false ->
  modify_metadata w input output profile custom_date method st
  = modify_metadata_ffmpeg w input output profile custom_date
      (with_log ERROR (fallback_message method) st).
Proof.
  intros H. unfold modify_metadata, bind.
  change (List.map fst (methods w)) with ["mutagen"; "exiftool"; "ffmpeg"].
  rewrite H. reflexivity.
Qed.

(** The transcode backend consults the environment through the external
    actions only: an extra log record changes nothing but the log. *)
Lemma modify_metadata_ffmpeg_log_frame (w : World) (input output : string)
  (profile : dict) (custom_date : option string) (st : state)
  (lvl : level) (msg : string) :
  let r1 := modify_metadata_ffmpeg w input output profile custom_date
              (with_log lvl msg st) in
  let r2 := modify_metadata_ffmpeg w input output profile custom_date st in
  fst r1 = fst r2
  /\ effects (snd r1) = effects (snd r2)
  /\ cache (snd r1) = cache (snd r2)
  /\ stdout (snd r1) = stdout (snd r2)
  /\ exists tail,
       log (snd r2) = log st ++ tail
       /\ log (snd r1) = log st ++ (lvl, msg) :: tail.
Proof.
  unfold modify_metadata_ffmpeg, with_log, try_catch, bind, logger, run, ret.
  simpl.
  destruct (subprocess_run w (effects st) _) as [o | m err | m]; simpl;
    repeat split; eexists; split;
    rewrite <- ?List.app_assoc; simpl; reflexivity.
Qed.

(** C7, the claim as stated fails: for a method name that is not
    recognised the record written to the log has level ERROR; no WARNING
    record is written. *)
Lemma unknown_method_logs_error_not_warning :
  let st' := snd (modify_metadata friendly_world "a.mp4" "b.mp4"
                    [("make", "Apple")] None "vlc" initial_state) in
  str_in "vlc" ["mutagen"; "exiftool"; "ffmpeg"] = false
  /\ List.filter is_warning (log st') = []
  /\ List.hd_error (log st')
     = Some (ERROR, "Unsupported method: vlc. Falling back to FFmpeg.").
Proof. repeat split. Qed.

(** C7, amended. For a method name that is not one of mutagen, exiftool,
    ffmpeg, modify_metadata writes one ERROR record to the log and runs
    the transcode backend: apart from that record, the outcome (value
    returned or exception raised, external command run, cache, standard
    output and the rest of the log) is that of the same call with method
    'ffmpeg'. *)
Theorem modify_metadata_unknown_method (w : World) (input output : string)
  (profile : dict) (custom_date : option string) (method : string)
  (st : state) :
  str_in method ["mutagen"; "exiftool"; "ffmpeg"] = false ->
  let r1 := modify_metadata w input output profile custom_date method st in
  let r2 := modify_metadata w input output profile custom_date "ffmpeg" st in
  r1 = modify_metadata_ffmpeg w input output profile custom_date
         (with_log ERROR (fallback_message method) st)
  /\ fst r1 = fst r2
  /\ effects (snd r1)
     = effects st ++ [Run (ffmpeg_cmd input output profile custom_date)]
  /\ effects (snd r1) = effects (snd r2)
  /\ cache (snd r1) = cache (snd r2)
  /\ stdout (snd r1) = stdout (snd r2)
  /\ exists tail,
       log (snd r2) = log st ++ tail
       /\ log (snd r1) = log st ++ (ERROR, fallback_message method) :: tail.
Proof.
  intros H r1 r2. subst r1 r2.
  rewrite (modify_metadata_fallback _ _ _ _ _ _ _ H).
  rewrite modify_metadata_ffmpeg_name.
  destruct (modify_metadata_ffmpeg_log_frame w input output profile
              custom_date st ERROR (fallback_message method))
    as (Hv & He & Hc & Ho & Hl).
  split; [reflexivity|]. split; [exact Hv|]. split.
  - rewrite modify_metadata_ffmpeg_effects. reflexivity.
  - auto.
Qed.

Lemma modify_metadata_unknown_method_witness :
  fst (modify_metadata friendly_world "a.mp4" "b.mp4" [("make", "Apple")]
         None "vlc" initial_state)
  = fst (modify_metadata friendly_world "a.mp4" "b.mp4" [("make", "Apple")]
           None "ffmpeg" initial_state).
Proof.
  apply (modify_metadata_unknown_method friendly_world "a.mp4" "b.mp4"
           [("make", "Apple")] None "vlc" initial_state).
  reflexivity.
Defined.

(* --------------------------------------------------------------------- *)
(* Metadata writer: the tag-library backend                              *)
(* --------------------------------------------------------------------- *)

(** C8. When the extension of the input file, lower-cased, is not .mp4,
    the tag-library backend returns false at once: it writes one WARNING
    record to the log and performs no external action (no process is run,
    no file is opened); the same holds when it is reached through
    modify_metadata with method 'mutagen'.  An input [pre/stem.mkv] is
    such a file. *)
Theorem mutagen_skips_non_mp4 (w : World) (input output : string)
  (profile : dict) (custom_date : option string) (st : state) :
  PyStr.lower (PyPath.suffix input) <> ".mp4" ->
  let skipped :=
    with_log WARNING "Mutagen supports only MP4 files. Skipping." st in
  modify_metadata_mutagen w input output profile custom_date st
  = (Ret false, skipped)
  /\ modify_metadata w input output profile custom_date "mutagen" st
     = (Ret false, skipped)
  /\ effects skipped = effects st
  /\ cache skipped = cache st
  /\ (forall pre stem,
        dir_prefix pre -> stem <> "" -> contains "/" stem = false ->
        PyStr.lower (PyPath.suffix (pre +:+ stem +:+ ".mkv")) <> ".mp4").
Proof.
  intros H skipped.
  assert (Hm : modify_metadata_mutagen w input output profile custom_date st
               = (Ret false, skipped)).
  { unfold modify_metadata_mutagen.
    apply String.eqb_neq in H. rewrite H. reflexivity. }
  split; [exact Hm|]. split; [exact Hm|].
  split; [reflexivity|]. split; [reflexivity|].
  intros pre stem Hp Hs Hc.
  change ".mkv" with (String "." "mkv").
  rewrite suffix_of_stem_ext
    by (assumption || discriminate || reflexivity).
  discriminate.
Qed.

Lemma mutagen_skips_non_mp4_witness :
  modify_metadata_mutagen friendly_world "clip.mkv" "out.mkv"
    [("make", "Apple")] None initial_state
  = (Ret false,
     with_log WARNING "Mutagen supports only MP4 files. Skipping."
       initial_state).
Proof.
  apply (mutagen_skips_non_mp4 friendly_world "clip.mkv" "out.mkv"
           [("make", "Apple")] None initial_state).
  vm_compute. discriminate.
Defined.

(* --------------------------------------------------------------------- *)
(* Profile store: loading a custom profile                               *)
(* --------------------------------------------------------------------- *)

(** C3, the claim as stated fails: for a profile file that cannot be
    opened, load_custom_profile returns an ordinary value, the empty
    mapping; the caller observes no failure. *)
Lemma load_custom_profile_missing_file_returns_empty :
  load_json_file no_profile_world [] "nope.json"
  = inr (FileNotFoundError "No such file or directory")
  /\ fst (load_custom_profile no_profile_world "nope.json" initial_state)
     = Ret [].
Proof. split; reflexivity. Qed.

(** C3, amended. load_custom_profile never raises: when the file is
    missing or does not hold valid JSON (opening or decoding raises an
    exception [e]), it writes an ERROR record with the text of [e] to the
    log and returns the empty mapping; otherwise it returns the mapping
    read from the file. *)
Theorem load_custom_profile_total (w : World) (profile_path : string)
  (st : state) :
  (forall e,
     load_json_file w (effects st) profile_path = inr e ->
     load_custom_profile w profile_path st
     = (Ret [],
        with_log ERROR ("Failed to load custom profile: " +:+ exn_str e)
          (record_effect (OpenRead profile_path) st)))
  /\ (forall d,
        load_json_file w (effects st) profile_path = inl d ->
        load_custom_profile w profile_path st
        = (Ret d, record_effect (OpenRead profile_path) st))
  /\ exists d, fst (load_custom_profile w profile_path st) = Ret d.
Proof.
  unfold load_custom_profile, try_catch, open_and_load, bind, logger, ret.
  split; [|split].
  - intros e He. rewrite He. reflexivity.
  - intros d Hd. rewrite Hd. reflexivity.
  - destruct (load_json_file w (effects st) profile_path) as [d | e];
      eexists; reflexivity.
Qed.

Lemma load_custom_profile_total_witness :
  load_custom_profile no_profile_world "nope.json" initial_state
  = (Ret [],
     with_log ERROR
       "Failed to load custom profile: No such file or directory"
       (record_effect (OpenRead "nope.json") initial_state)).
Proof.
  apply (proj1 (load_custom_profile_total no_profile_world "nope.json"
                  initial_state)
           (FileNotFoundError "No such file or directory")).
  reflexivity.
Defined.

(* --------------------------------------------------------------------- *)
(* Metadata reader: probing and the cache                                *)
(* --------------------------------------------------------------------- *)

Lemma cache_has_true (p : string) (d : json) (st : state) :
  cache st !! p = Some d -> cache_has p st = (Ret true, st).
Proof.
  intros H. unfold cache_has. rewrite bool_decide_eq_true_2; [reflexivity|].
  rewrite H. eauto.
Qed.

Lemma cache_has_false (p : string) (st : state) :
  cache st !! p = None -> cache_has p st = (Ret false, st).
Proof.
  intros H. unfold cache_has. rewrite bool_decide_eq_false_2; [reflexivity|].
  rewrite H. intros [x Hx]. discriminate.
Qed.

(** A path that is cached is answered from the cache: nothing is run and
    the state is left as it is. *)
Lemma get_current_metadata_cached (w : World) (p : string) (d : json)
  (st : state) :
  cache st !! p = Some d -> get_current_metadata w p st = (Ret d, st).
Proof.
  intros H. unfold get_current_metadata, bind.
  rewrite (cache_has_true _ _ _ H). simpl. unfold cache_lookup.
  now rewrite H.
Qed.

Lemma get_current_metadata_uncached (w : World) (p : string) (st : state) :
  cache st !! p = None ->
  get_current_metadata w p st
  = bind (probe_and_store w p) (fun _ => cache_lookup p) st.
Proof.
  intros H. unfold get_current_metadata, bind at 1 2.
  rewrite (cache_has_false _ _ H). reflexivity.
Qed.

(** What one run of the try block does to the state: the probe is run
    once; when the block completes, the path is cached; other cache
    entries, and standard output, are left alone. *)
Lemma probe_and_store_state (w : World) (p : string) (st : state) :
  let r := probe_and_store w p st in
  effects (snd r) = effects st ++ [Run (ffprobe_cmd p)]
  /\ stdout (snd r) = stdout st
  /\ (forall q, q <> p -> cache (snd r) !! q = cache st !! q)
  /\ (fst r = Ret tt -> is_Some (cache (snd r) !! p))
  /\ (forall c, fst r <> Exit c).
Proof.
  unfold probe_and_store, try_catch, bind, run, py_json_loads, file_info,
    json_setitem, cache_store, logger, ret, raise.
  destruct (subprocess_run w (effects st) (ffprobe_cmd p)) as [o | m err | m];
    simpl.
  - destruct (json_loads w o) as [parsed | m]; simpl.
    + destruct (stat_file w _ p) as [s | m]; simpl.
      * destruct parsed; simpl;
          repeat split; try discriminate;
          try (intros q Hq; now rewrite lookup_insert_ne);
          try (intros _; rewrite lookup_insert_eq; eauto).
      * repeat split; discriminate.
    + repeat split; discriminate.
  - repeat split; try discriminate.
    + intros q Hq. now rewrite lookup_insert_ne.
    + intros _. rewrite lookup_insert_eq. eauto.
  - repeat split; discriminate.
Qed.

















(* --------------------------------------------------------------------- *)
(* Control lemmas                                                        *)
(* --------------------------------------------------------------------- *)

Section Control.

Context {A B : Type}.

Lemma bind_Ret (m : M A) (k : A -> M B) (st st' : state) (a : A) :
  m st = (Ret a, st') -> bind m k st = k a st'.
Proof. intros H. unfold bind. now rewrite H. Qed.

Lemma bind_Raise (m : M A) (k : A -> M B) (st st' : state) (e : exn) :
  m st = (Raise e, st') -> bind m k st = (Raise e, st').
Proof. intros H. unfold bind. now rewrite H. Qed.

Lemma bind_Exit (m : M A) (k : A -> M B) (st st' : state) (c : Z) :
  m st = (Exit c, st') -> bind m k st = (Exit c, st').
Proof. intros H. unfold bind. now rewrite H. Qed.

Lemma try_catch_Ret (m : M A) (hs : exn -> bool) (h : exn -> M A)
  (st st' : state) (a : A) :
  m st = (Ret a, st') -> try_catch m hs h st = (Ret a, st').
Proof. intros H. unfold try_catch. now rewrite H. Qed.

Lemma try_catch_Exit (m : M A) (hs : exn -> bool) (h : exn -> M A)
  (st st' : state) (c : Z) :
  m st = (Exit c, st') -> try_catch m hs h st = (Exit c, st').
Proof. intros H. unfold try_catch. now rewrite H. Qed.

Lemma try_catch_Raise (m : M A) (h : exn -> M A) (st st' : state) (e : exn) :
  m st = (Raise e, st') -> try_catch m is_Exception h st = h e st'.
Proof. intros H. unfold try_catch. now rewrite H. Qed.

End Control.

(** The handlers of main turn an exception into exit status 1. *)
Lemma exit_code_guarded (m : M unit) (msg : string) (st : state) :
  let r := try_catch m is_Exception
             (fun e => logger ERROR (msg +:+ exn_str e) ;;; sys_exit 1) st in
  exit_code (fst r)
  = match fst (m st) with
    | Ret _ => 0%Z
    | Raise _ => 1%Z
    | Exit c => c
    end.
Proof.
  unfold try_catch. destruct (m st) as [[[]|e|c] st1]; reflexivity.
Qed.

(* --------------------------------------------------------------------- *)
(* Tool check                                                            *)
(* --------------------------------------------------------------------- *)

Definition ffmpeg_required : string :=
  "FFmpeg is required but not found. Please install FFmpeg.".

Definition exiftool_warning : string :=
  "ExifTool not found. Some metadata features may be limited.".

Definition is_ProcOk (r : proc_result) : bool :=
  match r with ProcOk _ => true | _ => false end.

(** The state after a tool check that found ffmpeg. *)
Definition checked (w : World) (st : state) : state :=
  let h1 := effects st ++ [Run ["ffmpeg"; "-version"]] in
  {| cache := cache st;
     effects := h1 ++ [Run ["exiftool"; "-ver"]];
     log := (log st ++ [(INFO, "FFmpeg is available")])
            ++ [if is_ProcOk (subprocess_run w h1 ["exiftool"; "-ver"])
                then (INFO, "ExifTool is available")
                else (WARNING, exiftool_warning)];
     stdout := stdout st |}.

Lemma check_tools_ffmpeg_ok (w : World) (st : state) :
  is_ProcOk (subprocess_run w (effects st) ["ffmpeg"; "-version"]) = true ->
  check_tools w st = (Ret tt, checked w st).
Proof.
  intros H. unfold check_tools, checked, try_catch, bind, run, logger, ret.
  destruct (subprocess_run w (effects st) ["ffmpeg"; "-version"]);
    try discriminate.
  simpl. destruct (subprocess_run w _ ["exiftool"; "-ver"]); reflexivity.
Qed.

Lemma check_tools_ffmpeg_missing (w : World) (st : state) :
  is_ProcOk (subprocess_run w (effects st) ["ffmpeg"; "-version"]) = false ->
  check_tools w st
  = (Raise (RuntimeError ffmpeg_required),
     with_log ERROR "FFmpeg is not installed or not accessible"
       (record_effect (Run ["ffmpeg"; "-version"]) st)).
Proof.
  intros H. unfold check_tools, try_catch, bind, run, logger, ret, raise.
  destruct (subprocess_run w (effects st) ["ffmpeg"; "-version"]);
    try discriminate; reflexivity.
Qed.

Lemma check_tools_no_Exit (w : World) (st : state) (c : Z) :
  fst (check_tools w st) <> Exit c.
Proof.
  destruct (is_ProcOk (subprocess_run w (effects st) ["ffmpeg"; "-version"]))
    eqn:H.
  - now rewrite (check_tools_ffmpeg_ok _ _ H).
  - now rewrite (check_tools_ffmpeg_missing _ _ H).
Qed.

(* --------------------------------------------------------------------- *)
(* Backends never leave the process                                      *)
(* --------------------------------------------------------------------- *)

Lemma strip_metadata_no_Exit (w : World) (input output : string) (st : state)
  (c : Z) :
  fst (strip_metadata w input output st) <> Exit c.
Proof.
  unfold strip_metadata, try_catch, bind, run, logger, ret. simpl.
  destruct (subprocess_run w (effects st) _); discriminate.
Qed.

Lemma modify_metadata_ffmpeg_no_Exit (w : World) (input output : string)
  (profile : dict) (custom_date : option string) (st : state) (c : Z) :
  fst (modify_metadata_ffmpeg w input output profile custom_date st) <> Exit c.
Proof.
  unfold modify_metadata_ffmpeg, try_catch, bind, run, logger, ret. simpl.
  destruct (subprocess_run w (effects st) _); discriminate.
Qed.

Lemma modify_metadata_exiftool_no_Exit (w : World) (input output : string)
  (profile : dict) (custom_date : option string) (st : state) (c : Z) :
  fst (modify_metadata_exiftool w input output profile custom_date st)
  <> Exit c.
Proof.
  unfold modify_metadata_exiftool, try_catch, bind, run, logger, ret. simpl.
  destruct (subprocess_run w (effects st) _); discriminate.
Qed.

Lemma modify_metadata_mutagen_no_Exit (w : World) (input output : string)
  (profile : dict) (custom_date : option string) (st : state) (c : Z) :
  fst (modify_metadata_mutagen w input output profile custom_date st)
  <> Exit c.
Proof.
  unfold modify_metadata_mutagen.
  destruct (negb _); [discriminate|].
  unfold try_catch, bind, mp4_open, mp4_write, logger, ret. simpl.
  destruct (mp4_load w (effects st) input) as [tags | e]; simpl;
    [|discriminate].
  destruct (mp4_save w _ output _); discriminate.
Qed.

Lemma modify_metadata_no_Exit (w : World) (input output : string)
  (profile : dict) (custom_date : option string) (method : string)
  (st : state) (c : Z) :
  fst (modify_metadata w input output profile custom_date method st)
  <> Exit c.
Proof.
  destruct (str_in method ["mutagen"; "exiftool"; "ffmpeg"]) eqn:Hin.
  - apply str_in_In in Hin. simpl in Hin.
    destruct Hin as [<- | [<- | [<- | []]]].
    + apply modify_metadata_mutagen_no_Exit.
    + apply modify_metadata_exiftool_no_Exit.
    + apply modify_metadata_ffmpeg_no_Exit.
  - rewrite (modify_metadata_fallback _ _ _ _ _ _ _ Hin).
    apply modify_metadata_ffmpeg_no_Exit.
Qed.

Lemma load_custom_profile_Ret (w : World) (path : string) (st : state) :
  exists d st', load_custom_profile w path st = (Ret d, st').
Proof.
  unfold load_custom_profile, try_catch, open_and_load, bind, logger, ret.
  destruct (load_json_file w (effects st) path); eauto.
Qed.

(** The write operation leaves the process only through the "Invalid
    device profile" exit, with status 1. *)
Lemma write_operation_Exit (w : World) (args : Namespace) (st : state)
  (c : Z) :
  fst (write_operation w args st) = Exit c -> c = 1%Z.
Proof.
  unfold write_operation. destruct (args_strip args).
  - intros H. now apply strip_metadata_no_Exit in H.
  - destruct (PyStr.truthy_opt (args_custom_profile args)).
    + destruct (load_custom_profile_Ret w (str_of (args_custom_profile args)) st)
        as (d & st' & Hl).
      rewrite (bind_Ret _ _ _ _ _ Hl). rewrite andb_false_r.
      unfold bind at 1, ret at 1.
      intros H. now apply modify_metadata_no_Exit in H.
    + unfold bind at 1, ret at 1. rewrite andb_true_r.
      destruct (negb (dict_truthy (named_profile (args_device args)))).
      * unfold bind, logger, sys_exit. simpl. congruence.
      * unfold bind at 1, ret at 1.
        intros H. now apply modify_metadata_no_Exit in H.
Qed.

(* --------------------------------------------------------------------- *)
(* Command surface                                                       *)
(* --------------------------------------------------------------------- *)

(** A value outside the [choices] of --device or --method. *)
Definition bad_choice (argv : Namespace) : bool :=
  match args_device argv with
  | Some d => negb (str_in d (List.map fst get_device_profiles))
  | None => false
  end
  || negb (str_in (args_method argv) method_choices).

(** Neither the form, nor the device list, nor show-metadata is asked
    for: the run is a strip or a modify. *)
Definition selects_write (args : Namespace) : bool :=
  negb (args_gui args) && negb (args_list_devices args)
  && negb (PyStr.truthy_opt (args_show_metadata args)).

(** The three flag rules of main for a strip or modify run. *)
Definition bad_flags (args : Namespace) : bool :=
  (negb (PyStr.truthy_opt (args_input args))
   || negb (PyStr.truthy_opt (args_output args)))
  || (args_strip args
      && (PyStr.truthy_opt (args_device args)
          || PyStr.truthy_opt (args_custom_profile args)
          || PyStr.truthy_opt (args_custom_date args)))
  || (negb (args_strip args)
      && negb (PyStr.truthy_opt (args_device args))
      && negb (PyStr.truthy_opt (args_custom_profile args))).

(** Flag validation fails. *)
Definition usage_error (argv : Namespace) : bool :=
  bad_choice argv || (selects_write argv && bad_flags argv).

Lemma parse_args_ok (argv : Namespace) (st : state) :
  bad_choice argv = false -> parse_args argv st = (Ret argv, st).
Proof.
  unfold bad_choice, parse_args. intros H.
  apply orb_false_iff in H as [Hd Hm].
  unfold bind, ret. rewrite Hm.
  destruct (args_device argv) as [d|]; [rewrite Hd|]; reflexivity.
Qed.

Lemma parse_args_bad (argv : Namespace) (st : state) :
  bad_choice argv = true ->
  fst (parse_args argv st) = Exit 2
  /\ effects (snd (parse_args argv st)) = effects st
  /\ stdout (snd (parse_args argv st)) = stdout st.
Proof.
  unfold bad_choice, parse_args, parser_error, bind, ret, logger, sys_exit.
  intros H.
  destruct (args_device argv) as [d|].
  - destruct (negb (str_in d (List.map fst get_device_profiles)));
      [split; [|split]; reflexivity|].
    rewrite orb_false_l in H. rewrite H. split; [|split]; reflexivity.
  - rewrite orb_false_l in H. rewrite H. split; [|split]; reflexivity.
Qed.

Definition main_handler (e : exn) : M unit :=
  logger ERROR ("An error occurred: " +:+ exn_str e) ;;; sys_exit 1.

Lemma main_run_write (w : World) (args : Namespace) (st : state) :
  selects_write args = true -> bad_flags args = false ->
  main_run w args st = try_catch (process w args) is_Exception main_handler st.
Proof.
  unfold selects_write, bad_flags, main_run. intros Hs Hb.
  apply andb_true_iff in Hs as [Hs Hshow].
  apply andb_true_iff in Hs as [Hg Hl].
  apply negb_true_iff in Hg, Hl, Hshow. rewrite Hg, Hl, Hshow.
  apply orb_false_iff in Hb as [Hb H3].
  apply orb_false_iff in Hb as [H1 H2].
  rewrite H1, H2, H3. reflexivity.
Qed.

Lemma main_run_bad_flags (w : World) (args : Namespace) (st : state) :
  selects_write args = true -> bad_flags args = true ->
  fst (main_run w args st) = Exit 2
  /\ effects (snd (main_run w args st)) = effects st
  /\ stdout (snd (main_run w args st)) = stdout st.
Proof.
  unfold selects_write, bad_flags, main_run. intros Hs Hb.
  apply andb_true_iff in Hs as [Hs Hshow].
  apply andb_true_iff in Hs as [Hg Hl].
  apply negb_true_iff in Hg, Hl, Hshow. rewrite Hg, Hl, Hshow.
  destruct (negb (PyStr.truthy_opt (args_input args))
            || negb (PyStr.truthy_opt (args_output args))); [simpl; auto|].
  destruct (args_strip args
            && (PyStr.truthy_opt (args_device args)
                || PyStr.truthy_opt (args_custom_profile args)
                || PyStr.truthy_opt (args_custom_date args))); [simpl; auto|].
  simpl in Hb. rewrite Hb. simpl. auto.
Qed.

(** The chain that makes a strip or modify run succeed. *)
Definition write_succeeds (w : World) (args : Namespace) (st : state) : Prop :=
  exists st1 st2 st3,
    check_tools w st = (Ret tt, st1)
    /\ validate_input_file w (str_of (args_input args)) st1 = (Ret true, st2)
    /\ write_operation w args st2 = (Ret true, st3).

Lemma process_outcome (w : World) (args : Namespace) (st : state) :
  (fst (process w args st) = Ret tt <-> write_succeeds w args st)
  /\ (forall c, fst (process w args st) = Exit c -> c = 1%Z).
Proof.
  unfold process, write_succeeds.
  destruct (check_tools w st) as [[[]|e|c] st1] eqn:Hc.
  2:{ rewrite (bind_Raise _ _ _ _ _ Hc).
      split; [split|]; try discriminate.
      intros (s1 & s2 & s3 & H & _). discriminate. }
  2:{ exfalso. apply (check_tools_no_Exit w st c). now rewrite Hc. }
  rewrite (bind_Ret _ _ _ _ _ Hc).
  pose proof (validate_input_file_value w (str_of (args_input args)) st1)
    as Hval.
  destruct (validate_input_file w (str_of (args_input args)) st1)
    as [[valid|e|c] st2] eqn:Hv; try discriminate.
  clear Hval. rewrite (bind_Ret _ _ _ _ _ Hv).
  assert (Hchain' :
            (exists st0 st3 st4 : state,
                (Ret tt, st1) = (Ret tt, st0)
                /\ validate_input_file w (str_of (args_input args)) st0
                   = (Ret true, st3)
                /\ write_operation w args st3 = (Ret true, st4))
            -> valid = true
               /\ exists st4, write_operation w args st2 = (Ret true, st4)).
  { intros (s1 & s2 & s3 & H1 & H2 & H3).
    injection H1 as <-. rewrite Hv in H2. injection H2 as -> <-. eauto. }
  destruct valid.
  2:{ split; [split|]; try (simpl; discriminate).
      - intros H. apply Hchain' in H as [H _]. discriminate.
      - simpl. intros c Hc'. congruence. }
  rewrite (bind_Ret (ret tt) _ st2 st2 tt eq_refl).
  destruct (write_operation w args st2) as [[[|]|e|c] st3] eqn:Hw.
  - rewrite (bind_Ret _ _ _ _ _ Hw).
    split; [split; [intros _; eauto 10 | reflexivity] | discriminate].
  - rewrite (bind_Ret _ _ _ _ _ Hw).
    split; [split|]; try (simpl; discriminate).
    + intros H. apply Hchain' in H as (_ & s4 & H). discriminate.
    + simpl. intros c Hc'. congruence.
  - rewrite (bind_Raise _ _ _ _ _ Hw).
    split; [split|]; try (simpl; discriminate).
    intros H. apply Hchain' in H as (_ & s4 & H). discriminate.
  - rewrite (bind_Exit _ _ _ _ _ Hw).
    split; [split|]; try (simpl; discriminate).
    + intros H. apply Hchain' in H as (_ & s4 & H). discriminate.
    + simpl. intros c' Hc'. injection Hc' as <-.
      apply (write_operation_Exit w args st2). now rewrite Hw.
Qed.

Lemma get_current_metadata_no_Exit (w : World) (p : string) (st : state)
  (c : Z) :
  fst (get_current_metadata w p st) <> Exit c.
Proof.
  destruct (cache st !! p) as [d|] eqn:Hp.
  - now rewrite (get_current_metadata_cached _ _ _ _ Hp).
  - rewrite (get_current_metadata_uncached _ _ _ Hp).
    destruct (probe_and_store_state w p st) as (_ & _ & _ & _ & Hne).
    unfold bind, cache_lookup.
    destruct (probe_and_store w p st) as [[[]|e|c'] st1]; simpl in *.
    + destruct (cache st1 !! p); discriminate.
    + discriminate.
    + exfalso. now apply (Hne c').
Qed.

Lemma launch_gui_no_Exit (w : World) (st : state) (c : Z) :
  fst (launch_gui w st) <> Exit c.
Proof.
  unfold launch_gui.
  destruct (check_tools w st) as [[[]|e|c'] st1] eqn:Hc.
  - rewrite (bind_Ret _ _ _ _ _ Hc).
    destruct (gui_session w (effects st1)); discriminate.
  - now rewrite (bind_Raise _ _ _ _ _ Hc).
  - exfalso. apply (check_tools_no_Exit w st c'). now rewrite Hc.
Qed.

(** The body of the show-metadata branch never leaves the process. *)
Lemma show_body_no_Exit (w : World) (path : string) (st : state) (c : Z) :
  fst ((check_tools w ;;;
        valid <- validate_input_file w path ;;
        if valid : bool then
          metadata <- get_current_metadata w path ;;
          print (JsonDump metadata)
        else ret tt) st) <> Exit c.
Proof.
  destruct (check_tools w st) as [[[]|e|c'] st1] eqn:Hc.
  - rewrite (bind_Ret _ _ _ _ _ Hc).
    pose proof (validate_input_file_value w path st1) as Hval.
    destruct (validate_input_file w path st1) as [[valid|e|c'] st2] eqn:Hv;
      try discriminate.
    clear Hval. rewrite (bind_Ret _ _ _ _ _ Hv).
    destruct valid; [|discriminate].
    pose proof (get_current_metadata_no_Exit w path st2) as Hg.
    unfold bind.
    destruct (get_current_metadata w path st2) as [[d|e|c'] st3]; simpl in *;
      [discriminate | discriminate | intros _; now apply (Hg c')].
  - now rewrite (bind_Raise _ _ _ _ _ Hc).
  - exfalso. apply (check_tools_no_Exit w st c'). now rewrite Hc.
Qed.

Lemma print_devices_Ret (names : list string) (st : state) :
  fst (print_devices names st) = Ret tt.
Proof.
  revert st. induction names as [|n names IH]; intros st; [reflexivity|].
  simpl. unfold bind, print. simpl. apply IH.
Qed.

(** Without a usage error the exit status of main_run is 0 or 1. *)
Lemma main_run_exit_code (w : World) (args : Namespace) (st : state) :
  selects_write args && bad_flags args = false ->
  exit_code (fst (main_run w args st)) = 0%Z
  \/ exit_code (fst (main_run w args st)) = 1%Z.
Proof.
  intros Hu. destruct (selects_write args) eqn:Hs.
  - simpl in Hu. rewrite (main_run_write _ _ _ Hs Hu).
    unfold main_handler. rewrite exit_code_guarded.
    destruct (process_outcome w args st) as [_ Hex].
    destruct (fst (process w args st)) as [[]|e|c]; auto.
  - clear Hu. unfold selects_write in Hs. unfold main_run.
    destruct (args_gui args).
    { rewrite exit_code_guarded.
      pose proof (launch_gui_no_Exit w st) as Hg.
      destruct (fst (launch_gui w st)) as [[]|e|c]; auto.
      exfalso. now apply (Hg c). }
    destruct (args_list_devices args).
    { left.
      rewrite (bind_Ret (print (Line "Available device profiles:")) _ st _ tt
                 eq_refl).
      now rewrite print_devices_Ret. }
    destruct (PyStr.truthy_opt (args_show_metadata args)); [|discriminate].
    rewrite exit_code_guarded.
    pose proof (show_body_no_Exit w (str_of (args_show_metadata args)) st)
      as Hb.
    match goal with
    | |- context [fst ?r] => destruct (fst r) as [[]|e|c] eqn:Hr
    end; auto.
    exfalso. now apply (Hb c).
Qed.

(** C2, the claim as stated fails: a command line that fails flag
    validation (here: no option at all) makes argparse exit with status
    2, not 1. *)
Lemma flag_validation_exits_with_2 :
  usage_error no_args = true
  /\ exit_code (fst (main friendly_world no_args initial_state)) = 2%Z
  /\ exit_code (fst (main friendly_world no_args initial_state)) <> 1%Z.
Proof. split; [reflexivity|]. split; [reflexivity | discriminate]. Qed.

(** C2, amended. A command line that fails flag validation exits with
    status 2, before any external action.  Every other run exits with
    status 0 or 1.  A strip or modify run exits with status 0 exactly
    when the tool check passes, the input file is valid and the write
    operation returns true; on an input-validation failure, a write
    operation that returns false, or an exception raised on the way, it
    exits with status 1. *)
Theorem main_exit_code (w : World) (argv : Namespace) (st : state) :
  let r := main w argv st in
  (usage_error argv = true ->
   fst r = Exit 2 /\ effects (snd r) = effects st
   /\ stdout (snd r) = stdout st)
  /\ (usage_error argv = false ->
      exit_code (fst r) = 0%Z \/ exit_code (fst r) = 1%Z)
  /\ (usage_error argv = false -> selects_write argv = true ->
      (exit_code (fst r) = 0%Z <-> write_succeeds w argv st)
      /\ (~ write_succeeds w argv st -> exit_code (fst r) = 1%Z)).
Proof.
  unfold usage_error, main. simpl.
  destruct (bad_choice argv) eqn:Hbc.
  - split; [|split; discriminate]. intros _.
    destruct (parse_args_bad argv st Hbc) as (Hf & He & Ho).
    destruct (parse_args argv st) as [r st'] eqn:Hp. simpl in *. subst r.
    now rewrite (bind_Exit _ _ _ _ _ Hp).
  - rewrite (bind_Ret _ _ _ _ _ (parse_args_ok argv st Hbc)).
    rewrite orb_false_l. split; [|split].
    + intros Hu. apply andb_true_iff in Hu as [Hs Hb].
      now apply main_run_bad_flags.
    + apply main_run_exit_code.
    + intros Hu Hs. rewrite Hs in Hu. simpl in Hu.
      rewrite (main_run_write _ _ _ Hs Hu).
      unfold main_handler. rewrite exit_code_guarded.
      destruct (process_outcome w argv st) as [Hret Hex].
      destruct (fst (process w argv st)) as [[]|e|c] eqn:Hp.
      * split; [tauto|]. intros Hn. exfalso. apply Hn. now apply Hret.
      * split; [|reflexivity]. split; [discriminate|].
        intros Hw. apply Hret in Hw. discriminate.
      * rewrite (Hex c eq_refl). split; [|reflexivity].
        split; [discriminate|].
        intros Hw. apply Hret in Hw. discriminate.
Qed.

Lemma main_exit_code_witness :
  exit_code (fst (main (tools_world [] ["ffmpeg"])
                    (strip_args "clip.mov" "out.mov") initial_state)) = 1%Z.
Proof.
  apply (main_exit_code (tools_world [] ["ffmpeg"])
           (strip_args "clip.mov" "out.mov") initial_state);
    [reflexivity | reflexivity |].
  intros (st1 & st2 & st3 & H & _). discriminate.
Defined.

(* --------------------------------------------------------------------- *)
(* Command surface: the profile of a modify run                          *)
(* --------------------------------------------------------------------- *)





(* --------------------------------------------------------------------- *)
(* Tool check and the metadata-tool backend                              *)
(* --------------------------------------------------------------------- *)

Lemma validate_input_file_true (w : World) (path : string) (st : state) :
  path_exists w (effects st) path = true ->
  str_in (PyStr.lower (PyPath.suffix path)) SUPPORTED_FORMATS = true ->
  validate_input_file w path st = (Ret true, st).
Proof.
  intros He Hs. unfold validate_input_file, bind, os_path_exists, ret.
  now rewrite He, Hs.
Qed.





(* ===================================================================== *)
(* Further properties: writer, reader, command surface, desktop form      *)
(* ===================================================================== *)

(* --------------------------------------------------------------------- *)
(* Auxiliary notions for the statements below                            *)
(* --------------------------------------------------------------------- *)

(** The last log record, if any. *)
Definition last_record (st : state) : option (level * string) :=
  List.last (List.map Some (log st)) None.

(** How the outcome [r] of a backend that runs the one command [cmd] from
    state [st] reflects what the tool did: true on success, false with an
    ERROR record carrying the tool's standard error on a non-zero exit,
    FileNotFoundError when the program does not exist. *)
Definition reflects_tool (w : World) (cmd : list string) (label : string)
  (st : state) (r : result bool * state) : Prop :=
  effects (snd r) = effects st ++ [Run cmd]
  /\ cache (snd r) = cache st
  /\ stdout (snd r) = stdout st
  /\ match subprocess_run w (effects st) cmd with
     | ProcOk _ => fst r = Ret true
     | ProcFailed _ err =>
         fst r = Ret false
         /\ last_record (snd r) = Some (ERROR, label +:+ err)
     | ProcNotFound m => fst r = Raise (FileNotFoundError m)
     end.

(** One tag assignment of the metadata tool. *)
Definition exiftool_pair (kv : string * string) : string :=
  "-" +:+ fst kv +:+ "=" +:+ snd kv.




(** The line that main prints after the write operation. *)
Definition verdict (args : Namespace) (success : bool) : out :=
  if success then
    Line ("Successfully "
          +:+ (if args_strip args then "stripped" else "modified")
          +:+ " metadata. Output saved to: " +:+ str_of (args_output args))
  else
    Line ("Failed to "
          +:+ (if args_strip args then "strip" else "modify")
          +:+ " metadata.").

Definition with_stdout (o : out) (st : state) : state := snd (print o st).

(** The input file passes validation in state [st]. *)
Definition valid_input (w : World) (path : string) (st : state) : bool :=
  path_exists w (effects st) path
  && str_in (PyStr.lower (PyPath.suffix path)) SUPPORTED_FORMATS.

(** ffmpeg -version succeeds in state [st]. *)
Definition ffmpeg_found (w : World) (st : state) : bool :=
  is_ProcOk (subprocess_run w (effects st) ["ffmpeg"; "-version"]).


(** The keys of every built-in device profile. *)
Definition profile_keys : list string :=
  ["make"; "model"; "software"; "encoder"; "creation_tool"].



(** --custom-profile together with --device. *)
Definition both_profiles_args : Namespace :=
  {| args_input := Some "a.mp4"; args_output := Some "b.mp4";
     args_device := Some "Xiaomi 15"; args_custom_profile := Some "mine.json";
     args_custom_date := None; args_strip := false;
     args_list_devices := false; args_gui := false;
     args_show_metadata := None; args_method := "ffmpeg" |}.

(** A well-formed path component: not empty, not ".", without a slash. *)
Definition component (s : string) : Prop :=
  contains "/" s = false /\ PyPath.kept s = true.

(** A path is well formed when its root is one of the three roots and
    its parts are components; [Path(p)] always is. *)
Definition well_formed (x : PurePath.t) : Prop :=
  (PurePath.root x = "" \/ PurePath.root x = "/" \/ PurePath.root x = "//")
  /\ List.Forall component (PurePath.parts x).

(** The name that browse_input_file gives the proposed output file. *)
Definition processed_name (filename : string) : string :=
  PurePath.stem (PurePath.parse filename) +:+ "_processed"
  +:+ PurePath.suffix (PurePath.parse filename).

(** The form while the worker thread is at work: progress running, the
    Process button disabled, status "Processing...". *)
Definition busy (f : Form.form) : Form.form :=
  Form.set_status "Processing..."
    (Form.set_button false (Form.set_progress true f)).

(** The form after the worker thread has finished with [success]. *)
Definition finished (success : bool) (f : Form.form) : Form.form :=
  Form.set_status
    (if success then "Processing completed successfully!"
     else "Processing failed.")
    (Form.set_button true (Form.set_progress false (busy f))).

(** The message box shown when the worker thread finishes. *)
Definition final_dialog (success : bool) (f : Form.form) : Form.event :=
  let modify := String.eqb (Form.action_var f) "modify" in
  if success then
    Form.ShowInfo "Success"
      ("Video "
       +:+ (if modify then "metadata modified" else "metadata stripped")
       +:+ " successfully!")
  else
    Form.ShowError "Error"
      ("Failed to " +:+ (if modify then "modify" else "strip")
       +:+ " video metadata.").

(** The override timestamp that the form passes on. *)
Definition form_date (f : Form.form) : option string :=
  if Form.custom_date_var f then Some (Form.date_entry f) else None.

(** The mapping that the worker thread passes to modify_metadata. *)
Definition form_profile (f : Form.form) : dict :=
  match dict_get (Form.device_var f) get_device_profiles with
  | Some p => p
  | None => []
  end.

(** The worker thread gives up on the device: the name is not in the
    table and is not "Custom Profile". *)
Definition unknown_device (f : Form.form) : bool :=
  negb (dict_truthy (form_profile f))
  && negb (String.eqb (Form.device_var f) "Custom Profile").

(** The operation of the modifier that the worker thread runs. *)
Definition form_operation (w : World) (f : Form.form) : M bool :=
  if String.eqb (Form.action_var f) "modify" then
    modify_metadata w (Form.input_file_var f) (Form.output_file_var f)
      (form_profile f) (form_date f) (Form.method_var f)
  else if String.eqb (Form.action_var f) "strip" then
    strip_metadata w (Form.input_file_var f) (Form.output_file_var f)
  else ret false.

(** A form ready to modify "clip.mp4" with the device named [device]. *)
Definition a_form (device : string) : Form.form :=
  {| Form.input_file_var := "clip.mp4";
     Form.output_file_var := "clip_processed.mp4";
     Form.device_var := device;
     Form.metadata_text := "";
     Form.custom_date_var := false;
     Form.date_entry := "2024-05-01 12:00:00";
     Form.action_var := "modify";
     Form.method_var := "ffmpeg";
     Form.status_var := "Ready";
     Form.process_button_enabled := true;
     Form.progress_running := false |}.

Definition a_desk (device : string) : Form.desk :=
  {| Form.frm := a_form device; Form.events := [];
     Form.proc := initial_state |}.

(** The form passes the guards of process_video in the process state [s]. *)
Definition ready_to_process (w : World) (f : Form.form) (s : state) : bool :=
  PyStr.truthy (Form.input_file_var f)
  && PyStr.truthy (Form.output_file_var f)
  && negb (String.eqb (Form.action_var f) "modify"
           && negb (PyStr.truthy (Form.device_var f)))
  && valid_input w (Form.input_file_var f) s.

(** A disk on which no profile can be written. *)
Definition read_only_disk : list Form.event -> string -> dict -> option exn :=
  fun _ _ _ => Some (OSError "Read-only file system").

(** A disk on which every write succeeds. *)
Definition writable_disk : list Form.event -> string -> dict -> option exn :=
  fun _ _ _ => None.

(** --gui and nothing else. *)
Definition gui_args : Namespace :=
  {| args_input := None; args_output := None; args_device := None;
     args_custom_profile := None; args_custom_date := None;
     args_strip := false; args_list_devices := false; args_gui := true;
     args_show_metadata := None; args_method := "ffmpeg" |}.

(* End of the auxiliary notions. *)

Lemma last_record_app (st : state) (lvl : level) (msg : string)
  (l : list (level * string)) :
  log st = l ++ [(lvl, msg)] -> last_record st = Some (lvl, msg).
Proof.
  intros H. unfold last_record. rewrite H, List.map_app. simpl.
  apply List.last_last.
Qed.

(* --------------------------------------------------------------------- *)
(* The backends that run a command                                       *)
(* --------------------------------------------------------------------- *)

Lemma strip_metadata_reflects (w : World) (input output : string)
  (st : state) :
  reflects_tool w
    ["ffmpeg"; "-i"; input; "-c"; "copy"; "-map_metadata"; "-1"; "-y"; output]
    "FFmpeg error: " st (strip_metadata w input output st).
Proof.
  unfold reflects_tool, strip_metadata, try_catch, bind, run, logger, ret,
    strip_cmd.
  simpl.
  destruct (subprocess_run w (effects st) _); simpl;
    repeat (split; [reflexivity|]); try reflexivity.
  eapply last_record_app. reflexivity.
Qed.

(** X1. strip_metadata runs exactly one external command,
    ffmpeg -i input -c copy -map_metadata -1 -y output, and leaves the
    cache and standard output alone; it returns true when the command
    succeeds, returns false after logging "FFmpeg error: <stderr>" when
    the command exits with a non-zero status, and raises
    FileNotFoundError when ffmpeg cannot be started. *)
Theorem strip_metadata_outcome (w : World) (input output : string)
  (st : state) :
  reflects_tool w
    ["ffmpeg"; "-i"; input; "-c"; "copy"; "-map_metadata"; "-1"; "-y"; output]
    "FFmpeg error: " st (strip_metadata w input output st).
Proof. exact (strip_metadata_reflects _ _ _ _). Qed.



(** X3. The command of the metadata-tool backend is
    exiftool -o output, then one -key=value argument per entry of the
    mapping, in order, then -CreateDate and -ModifyDate (both, with the
    override timestamp) exactly when the timestamp is present and not
    empty, then -overwrite_original and the input file. *)
Theorem exiftool_command_shape (input output : string) (profile : dict)
  (custom_date : option string) :
  exists date_part,
    exiftool_cmd input output profile custom_date
    = ["exiftool"; "-o"; output] ++ List.map exiftool_pair profile
      ++ date_part ++ ["-overwrite_original"; input]
    /\ (forall d, custom_date = Some d -> d <> "" ->
        date_part = ["-CreateDate=" +:+ d; "-ModifyDate=" +:+ d])
    /\ (custom_date = None \/ custom_date = Some "" -> date_part = [])
    /\ length (exiftool_cmd input output profile custom_date)
       = (5 + length profile + length date_part)%nat.
Proof.
  unfold exiftool_cmd.
  destruct custom_date as [[|c d]|]; simpl PyStr.truthy; cbv iota.
  - exists []. split; [reflexivity|]. split; [congruence|].
    split; [reflexivity|].
    rewrite !List.length_app, List.length_map. simpl. lia.
  - exists ["-CreateDate=" +:+ String c d; "-ModifyDate=" +:+ String c d].
    split; [now rewrite <- !List.app_assoc|]. split.
    + intros d' Hd' _. now injection Hd' as <-.
    + split; [intros [H | H]; discriminate|].
      rewrite !List.length_app, List.length_map. simpl. lia.
  - exists []. split; [reflexivity|]. split; [congruence|].
    split; [reflexivity|].
    rewrite !List.length_app, List.length_map. simpl. lia.
Qed.

Lemma exiftool_command_shape_witness :
  exiftool_cmd "a.mp4" "b.mp4" [("make", "Apple")] (Some "2024:05:01 12:00:00")
  = ["exiftool"; "-o"; "b.mp4"; "-make=Apple";
     "-CreateDate=2024:05:01 12:00:00"; "-ModifyDate=2024:05:01 12:00:00";
     "-overwrite_original"; "a.mp4"].
Proof.
  destruct (exiftool_command_shape "a.mp4" "b.mp4" [("make", "Apple")]
              (Some "2024:05:01 12:00:00")) as (dp & Hc & Hd & _).
  rewrite Hc, (Hd "2024:05:01 12:00:00" eq_refl); [reflexivity | discriminate].
Defined.

(* --------------------------------------------------------------------- *)
(* Insertion-ordered dicts                                               *)
(* --------------------------------------------------------------------- *)

Section DictLaws.

Context {V : Type}.

Lemma dict_get_set_eq (k : string) (v : V) (d : list (string * V)) :
  dict_get k (dict_set k v d) = Some v.
Proof.
  induction d as [|[k' v'] d IH]; simpl.
  - now rewrite String.eqb_refl.
  - destruct (String.eqb k' k) eqn:E; simpl.
    + now rewrite String.eqb_refl.
    + now rewrite E.
Qed.

Lemma dict_get_set_ne (k k' : string) (v : V) (d : list (string * V)) :
  k <> k' -> dict_get k' (dict_set k v d) = dict_get k' d.
Proof.
  intros Hne. induction d as [|[k0 v0] d IH]; simpl.
  - apply String.eqb_neq in Hne. now rewrite Hne.
  - destruct (String.eqb k0 k) eqn:E; simpl.
    + apply String.eqb_eq in E. subst k0.
      apply String.eqb_neq in Hne. now rewrite Hne.
    + now rewrite IH.
Qed.





End DictLaws.

(* --------------------------------------------------------------------- *)
(* The tag-library backend                                               *)
(* --------------------------------------------------------------------- *)











(* --------------------------------------------------------------------- *)
(* Dispatch                                                              *)
(* --------------------------------------------------------------------- *)




(* --------------------------------------------------------------------- *)
(* The metadata reader                                                   *)
(* --------------------------------------------------------------------- *)

(** X8. For a path that is not cached, when the probe succeeds, its
    output is a JSON object and the file can be examined,
    get_current_metadata returns the probe's object with the entry
    'file_info' added (replacing an entry of that name, all other entries
    unchanged), stores it in the cache, and writes no log record.
    'file_info' holds the file name, the size in MB, the extension
    without its dot in upper case, and the two dates. *)
Theorem get_current_metadata_document (w : World) (p : string) (st : state)
  (o : string) (fields : list (string * json)) (s : file_stat) :
  cache st !! p = None ->
  subprocess_run w (effects st) (ffprobe_cmd p) = ProcOk o ->
  json_loads w o = inl (JObj fields) ->
  stat_file w (effects st ++ [Run (ffprobe_cmd p)]) p = inl s ->
  exists doc info,
    get_current_metadata w p st
    = (Ret (JObj doc),
       {| cache := <[p := JObj doc]> (cache st);
          effects := effects st ++ [Run (ffprobe_cmd p)];
          log := log st;
          stdout := stdout st |})
    /\ dict_get "file_info" doc = Some (JObj info)
    /\ (forall k, k <> "file_info" -> dict_get k doc = dict_get k fields)
    /\ List.map fst info
       = ["file_name"; "file_size"; "file_format"; "date_created";
          "date_modified"]
    /\ dict_get "file_name" info = Some (JStr (PyPath.name p))
    /\ dict_get "file_size" info
       = Some (JNum (Qmake (Z.of_N (st_size s)) 1048576))
    /\ dict_get "file_format" info
       = Some (JStr (PyStr.upper (PyStr.drop_str 1 (PyPath.suffix p))))
    /\ dict_get "date_created" info = Some (JStr (st_created s))
    /\ dict_get "date_modified" info = Some (JStr (st_modified s)).
Proof.
  intros Hc Hp Hj Hs.
  rewrite (get_current_metadata_uncached _ _ _ Hc).
  unfold bind, probe_and_store, try_catch, bind, run, py_json_loads,
    file_info, json_setitem, cache_store, ret.
  rewrite Hp. simpl. rewrite Hj. simpl. rewrite Hs. simpl.
  unfold cache_lookup. simpl. rewrite lookup_insert_eq.
  eexists. eexists. split; [reflexivity|].
  split; [apply dict_get_set_eq|].
  split; [intros k Hk; apply dict_get_set_ne; congruence|].
  repeat split.
Qed.

Lemma get_current_metadata_document_witness :
  exists doc,
    fst (get_current_metadata friendly_world "videos/clip.mp4" initial_state)
    = Ret (JObj doc)
    /\ dict_get "format" doc = Some (JObj []).
Proof.
  destruct (get_current_metadata_document friendly_world "videos/clip.mp4"
              initial_state "{}" [("format", JObj [])] a_stat
              eq_refl eq_refl eq_refl eq_refl)
    as (doc & info & Hcall & _ & Hother & _).
  exists doc. rewrite Hcall. split; [reflexivity|].
  rewrite Hother; [reflexivity | discriminate].
Defined.

(** The 'file_format' of a path [pre/stem.ext] is [ext] in upper case. *)
Lemma file_format_of_stem_ext (pre stem ext : string) :
  dir_prefix pre -> stem <> "" -> ext <> "" ->
  contains "/" stem = false -> contains "/" ext = false ->
  contains "." ext = false ->
  PyStr.upper (PyStr.drop_str 1 (PyPath.suffix (pre +:+ stem +:+ String "." ext)))
  = PyStr.upper ext.
Proof.
  intros. now rewrite suffix_of_stem_ext.
Qed.



(* --------------------------------------------------------------------- *)
(* The command surface: strip and modify runs                            *)
(* --------------------------------------------------------------------- *)

Lemma main_processing (w : World) (args : Namespace) (st : state) :
  bad_choice args = false -> selects_write args = true ->
  bad_flags args = false ->
  main w args st = try_catch (process w args) is_Exception main_handler st.
Proof.
  intros Hbc Hs Hb. unfold main.
  rewrite (bind_Ret _ _ _ _ _ (parse_args_ok args st Hbc)).
  now apply main_run_write.
Qed.

Lemma validate_input_file_false (w : World) (path : string) (st : state) :
  valid_input w path st = false ->
  exists st', validate_input_file w path st = (Ret false, st')
              /\ effects st' = effects st /\ cache st' = cache st
              /\ stdout st' = stdout st.
Proof.
  unfold valid_input, validate_input_file, bind, os_path_exists, ret, logger.
  destruct (path_exists w (effects st) path);
    destruct (str_in (PyStr.lower (PyPath.suffix path)) SUPPORTED_FORMATS);
    try discriminate; intros _; eexists; split; try reflexivity; auto.
Qed.

Lemma process_after_checks (w : World) (args : Namespace) (st : state) :
  ffmpeg_found w st = true ->
  valid_input w (str_of (args_input args)) (checked w st) = true ->
  process w args st
  = bind (write_operation w args)
      (fun success : bool =>
         if success then print (verdict args true)
         else print (verdict args false) ;;; sys_exit 1)
      (checked w st).
Proof.
  intros Hf Hv. unfold process.
  rewrite (bind_Ret _ _ _ _ _ (check_tools_ffmpeg_ok _ _ Hf)).
  apply andb_true_iff in Hv as [He Hx].
  rewrite (bind_Ret _ _ _ _ _ (validate_input_file_true w _ _ He Hx)).
  now rewrite (bind_Ret (ret tt) _ _ _ tt eq_refl).
Qed.

(** X10. A strip or modify run stops before the write operation when a
    check fails.  When ffmpeg is missing, the only external action is the
    attempt to run ffmpeg -version: exiftool is not tried, the input file
    is not examined.  When ffmpeg is there and the input file is missing
    or has an unsupported extension, the only external actions are the
    two tool checks: no profile file is opened and no backend command is
    run.  In both cases the exit status is 1 and nothing is printed. *)
Theorem write_run_stops_at_failed_check (w : World) (args : Namespace)
  (st : state) :
  bad_choice args = false -> selects_write args = true ->
  bad_flags args = false ->
  let r := main w args st in
  (ffmpeg_found w st = false ->
   fst r = Exit 1
   /\ effects (snd r) = effects st ++ [Run ["ffmpeg"; "-version"]]
   /\ stdout (snd r) = stdout st)
  /\ (ffmpeg_found w st = true ->
      valid_input w (str_of (args_input args)) (checked w st) = false ->
      fst r = Exit 1
      /\ effects (snd r)
         = effects st
           ++ [Run ["ffmpeg"; "-version"]; Run ["exiftool"; "-ver"]]
      /\ stdout (snd r) = stdout st).
Proof.
  intros Hbc Hs Hb r. subst r. rewrite (main_processing _ _ _ Hbc Hs Hb).
  unfold process. split.
  - intros Hf.
    rewrite (try_catch_Raise _ _ _ _ _
               (bind_Raise _ _ _ _ _ (check_tools_ffmpeg_missing _ _ Hf))).
    repeat split.
  - intros Hf Hv.
    destruct (validate_input_file_false _ _ _ Hv) as (st' & Hval & He & _ & Ho).
    erewrite try_catch_Exit.
    2:{ rewrite (bind_Ret _ _ _ _ _ (check_tools_ffmpeg_ok _ _ Hf)).
        rewrite (bind_Ret _ _ _ _ _ Hval). reflexivity. }
    simpl. rewrite He, Ho. simpl. rewrite <- List.app_assoc. repeat split.
Qed.

Lemma write_run_stops_at_failed_check_witness :
  effects (snd (main friendly_world
                  (device_args "notes.txt" "b.mp4" "Xiaomi 15" "ffmpeg")
                  initial_state))
  = [Run ["ffmpeg"; "-version"]; Run ["exiftool"; "-ver"]].
Proof.
  apply (write_run_stops_at_failed_check friendly_world
           (device_args "notes.txt" "b.mp4" "Xiaomi 15" "ffmpeg")
           initial_state eq_refl eq_refl eq_refl);
    reflexivity.
Defined.

Lemma main_after_checks (w : World) (args : Namespace)
  (st : state) :
  bad_choice args = false -> selects_write args = true ->
  bad_flags args = false ->
  ffmpeg_found w st = true ->
  valid_input w (str_of (args_input args)) (checked w st) = true ->
  main w args st
  = match write_operation w args (checked w st) with
    | (Ret true, st') => (Ret tt, with_stdout (verdict args true) st')
    | (Ret false, st') => (Exit 1, with_stdout (verdict args false) st')
    | (Raise e, st') =>
        (Exit 1, with_log ERROR ("An error occurred: " +:+ exn_str e) st')
    | (Exit c, st') => (Exit c, st')
    end.
Proof.
  intros Hbc Hs Hb Hf Hv. rewrite (main_processing _ _ _ Hbc Hs Hb).
  unfold try_catch. rewrite (process_after_checks _ _ _ Hf Hv).
  unfold bind at 1.
  destruct (write_operation w args (checked w st)) as [[[|]|e|c] st'];
    reflexivity.
Qed.

(** X11. Once the checks have passed, a strip or modify run is decided by
    its write operation alone, run in the state left by the tool check:
    if it returns true, main prints "Successfully ..." and returns (exit
    status 0); if it returns false, main prints "Failed to ..." and exits
    with status 1; if it raises, main logs "An error occurred: ..." and
    exits with status 1 without printing. *)
Theorem write_run_follows_write_operation (w : World) (args : Namespace)
  (st : state) :
  bad_choice args = false -> selects_write args = true ->
  bad_flags args = false ->
  ffmpeg_found w st = true ->
  valid_input w (str_of (args_input args)) (checked w st) = true ->
  main w args st
  = match write_operation w args (checked w st) with
    | (Ret true, st') => (Ret tt, with_stdout (verdict args true) st')
    | (Ret false, st') => (Exit 1, with_stdout (verdict args false) st')
    | (Raise e, st') =>
        (Exit 1, with_log ERROR ("An error occurred: " +:+ exn_str e) st')
    | (Exit c, st') => (Exit c, st')
    end.
Proof. exact (main_after_checks _ _ _). Qed.

Lemma write_run_follows_write_operation_witness :
  main (tools_world [] ["exiftool"])
    (device_args "a.mp4" "b.mp4" "Xiaomi 15" "exiftool") initial_state
  = (Exit 1,
     with_stdout (Line "Failed to modify metadata.")
       (snd (write_operation (tools_world [] ["exiftool"])
               (device_args "a.mp4" "b.mp4" "Xiaomi 15" "exiftool")
               (checked (tools_world [] ["exiftool"]) initial_state)))).
Proof.
  rewrite (write_run_follows_write_operation (tools_world [] ["exiftool"])
             (device_args "a.mp4" "b.mp4" "Xiaomi 15" "exiftool")
             initial_state eq_refl eq_refl eq_refl eq_refl eq_refl).
  reflexivity.
Defined.

(** X12. A strip run whose checks pass performs exactly three external
    actions: the two tool checks and the strip command
    ffmpeg -i input -c copy -map_metadata -1 -y output.  It opens no
    profile file.  It prints "Successfully stripped ..." and returns when
    the command succeeds, prints "Failed to strip metadata." and exits
    with status 1 when the command exits with a non-zero status, and
    exits with status 1 without printing when ffmpeg has vanished. *)
Theorem strip_run (w : World) (args : Namespace) (st : state) :
  bad_choice args = false -> selects_write args = true ->
  bad_flags args = false -> args_strip args = true ->
  ffmpeg_found w st = true ->
  valid_input w (str_of (args_input args)) (checked w st) = true ->
  let input := str_of (args_input args) in
  let output := str_of (args_output args) in
  let cmd :=
    ["ffmpeg"; "-i"; input; "-c"; "copy"; "-map_metadata"; "-1"; "-y"; output]
  in
  let r := main w args st in
  effects (snd r)
  = effects st ++ [Run ["ffmpeg"; "-version"]; Run ["exiftool"; "-ver"];
                   Run cmd]
  /\ cache (snd r) = cache st
  /\ match subprocess_run w (effects (checked w st)) cmd with
     | ProcOk _ =>
         fst r = Ret tt
         /\ stdout (snd r)
            = stdout st
              ++ [Line ("Successfully stripped metadata. Output saved to: "
                        +:+ output)]
     | ProcFailed _ _ =>
         fst r = Exit 1
         /\ stdout (snd r) = stdout st ++ [Line "Failed to strip metadata."]
     | ProcNotFound _ => fst r = Exit 1 /\ stdout (snd r) = stdout st
     end.
Proof.
  intros Hbc Hs Hb Hstrip Hf Hv input output cmd r. subst r.
  rewrite (main_after_checks _ _ _ Hbc Hs Hb Hf Hv).
  unfold write_operation. rewrite Hstrip.
  destruct (strip_metadata_reflects w input output (checked w st))
    as (He & Hc & Ho & Hres).
  fold input output. fold cmd in He, Hres.
  destruct (strip_metadata w input output (checked w st)) as [res st'].
  cbn [fst snd] in He, Hc, Ho, Hres.
  assert (Heff : effects st'
                 = effects st ++ [Run ["ffmpeg"; "-version"];
                                  Run ["exiftool"; "-ver"]; Run cmd]).
  { rewrite He. simpl. now rewrite <- !List.app_assoc. }
  unfold verdict. rewrite Hstrip.
  destruct (subprocess_run w (effects (checked w st)) cmd) as [o | m err | m];
    [subst res | destruct Hres as [-> _] | subst res];
    simpl; rewrite ?Ho; auto.
Qed.

Lemma strip_run_witness :
  fst (main friendly_world (strip_args "clip.mov" "out.mov") initial_state)
  = Ret tt
  /\ effects (snd (main friendly_world (strip_args "clip.mov" "out.mov")
                     initial_state))
     = [Run ["ffmpeg"; "-version"]; Run ["exiftool"; "-ver"];
        Run ["ffmpeg"; "-i"; "clip.mov"; "-c"; "copy"; "-map_metadata"; "-1";
             "-y"; "out.mov"]].
Proof.
  destruct (strip_run friendly_world (strip_args "clip.mov" "out.mov")
              initial_state eq_refl eq_refl eq_refl eq_refl eq_refl eq_refl)
    as (He & _ & Hr & _).
  split; [exact Hr | exact He].
Defined.

(* --------------------------------------------------------------------- *)
(* The command surface: listing, showing, and the order of the modes     *)
(* --------------------------------------------------------------------- *)




(** X14. --show-metadata: when ffmpeg is missing the run exits with
    status 1.  When the file is missing or has an unsupported extension,
    the probe is not run, nothing is printed and main returns all the
    same (exit status 0).  When the file is valid, main prints the
    document that get_current_metadata returns (the empty document after
    a failed probe) and returns, or exits with status 1 without printing
    when get_current_metadata raises. *)
Theorem show_metadata_run (w : World) (args : Namespace) (st : state) :
  bad_choice args = false ->
  args_gui args = false -> args_list_devices args = false ->
  PyStr.truthy_opt (args_show_metadata args) = true ->
  let path := str_of (args_show_metadata args) in
  let r := main w args st in
  (ffmpeg_found w st = false ->
   fst r = Exit 1 /\ stdout (snd r) = stdout st
   /\ effects (snd r) = effects st ++ [Run ["ffmpeg"; "-version"]])
  /\ (ffmpeg_found w st = true ->
      valid_input w path (checked w st) = false ->
      fst r = Ret tt /\ stdout (snd r) = stdout st
      /\ effects (snd r) = effects (checked w st))
  /\ (ffmpeg_found w st = true ->
      valid_input w path (checked w st) = true ->
      match get_current_metadata w path (checked w st) with
      | (Ret doc, st') => r = (Ret tt, with_stdout (JsonDump doc) st')
      | (Raise e, st') =>
          r = (Exit 1,
               with_log ERROR ("Failed to read metadata: " +:+ exn_str e) st')
      | (Exit c, st') => False
      end).
Proof.
  intros Hbc Hg Hl Hshow path r. subst r. unfold main.
  rewrite (bind_Ret _ _ _ _ _ (parse_args_ok args st Hbc)).
  unfold main_run. rewrite Hg, Hl, Hshow. fold path.
  split; [|split].
  - intros Hf.
    rewrite (try_catch_Raise _ _ _ _ _
               (bind_Raise _ _ _ _ _ (check_tools_ffmpeg_missing _ _ Hf))).
    repeat split.
  - intros Hf Hv.
    destruct (validate_input_file_false _ _ _ Hv) as (st' & Hval & He & _ & Ho).
    erewrite try_catch_Ret.
    2:{ rewrite (bind_Ret _ _ _ _ _ (check_tools_ffmpeg_ok _ _ Hf)).
        rewrite (bind_Ret _ _ _ _ _ Hval). reflexivity. }
    simpl. auto.
  - intros Hf Hv. apply andb_true_iff in Hv as [He Hx].
    unfold try_catch.
    rewrite (bind_Ret _ _ _ _ _ (check_tools_ffmpeg_ok _ _ Hf)).
    rewrite (bind_Ret _ _ _ _ _ (validate_input_file_true w _ _ He Hx)).
    pose proof (get_current_metadata_no_Exit w path (checked w st)) as Hne.
    destruct (get_current_metadata w path (checked w st)) as [[doc|e|c] st']
      eqn:Hcall.
    + now rewrite (bind_Ret _ _ _ _ _ Hcall).
    + now rewrite (bind_Raise _ _ _ _ _ Hcall).
    + now apply (Hne c).
Qed.

Lemma show_metadata_run_witness :
  main friendly_world (show_args "notes.txt") initial_state
  = (Ret tt,
     with_log ERROR "Unsupported file format: .txt"
       (checked friendly_world initial_state)).
Proof.
  destruct (show_metadata_run friendly_world (show_args "notes.txt")
              initial_state eq_refl eq_refl eq_refl eq_refl)
    as (_ & Hinvalid & _).
  destruct (Hinvalid eq_refl eq_refl) as (Hr & _).
  destruct (main friendly_world (show_args "notes.txt") initial_state)
    as [r st'] eqn:Hm.
  simpl in Hr. subst r. rewrite <- Hm. reflexivity.
Defined.



(* --------------------------------------------------------------------- *)
(* The command surface: where the profile of a modify run comes from     *)
(* --------------------------------------------------------------------- *)

Lemma metadata_pairs_length (profile : dict) :
  length (flat_map metadata_pair profile) = (2 * length profile)%nat.
Proof.
  induction profile as [|kv profile IH]; simpl; [reflexivity|].
  rewrite IH. lia.
Qed.

Lemma dict_get_Forall {V : Type} (P : V -> Prop) (k : string)
  (d : list (string * V)) (v : V) :
  List.Forall (fun e => P (snd e)) d -> dict_get k d = Some v -> P v.
Proof.
  induction 1 as [|[k' v'] d Hhd Htl IH]; simpl; [discriminate|].
  destruct (String.eqb k' k); [|exact IH].
  intros H. now injection H as <-.
Qed.

Lemma device_profile_shape (d : string) (p : dict) :
  dict_get d get_device_profiles = Some p ->
  List.map fst p = profile_keys /\ p <> [].
Proof.
  apply (dict_get_Forall (fun p => List.map fst p = profile_keys /\ p <> [])).
  unfold get_device_profiles.
  repeat (apply List.Forall_cons; [split; [reflexivity | discriminate]|]).
  apply List.Forall_nil.
Qed.

Lemma str_in_dict_get {V : Type} (k : string) (d : list (string * V)) :
  str_in k (List.map fst d) = true -> exists v, dict_get k d = Some v.
Proof.
  induction d as [|[k' v'] d IH]; [discriminate|].
  unfold str_in. simpl. rewrite String.eqb_sym.
  destruct (String.eqb k' k); simpl; eauto.
Qed.

(** X16. A modify run with --device and no custom profile takes its
    mapping from the built-in table: the mapping has exactly the keys
    make, model, software, encoder, creation_tool, in this order; the
    write operation is modify_metadata on that mapping, with no profile
    file opened and no "Invalid device profile" exit; with the default
    method the command run has exactly five -metadata pairs before the
    optional creation_time pair. *)
Theorem device_run_uses_table_profile (w : World) (args : Namespace)
  (st : state) :
  bad_choice args = false -> bad_flags args = false ->
  args_strip args = false ->
  PyStr.truthy_opt (args_custom_profile args) = false ->
  exists d profile,
    args_device args = Some d
    /\ dict_get d get_device_profiles = Some profile
    /\ List.map fst profile = profile_keys
    /\ write_operation w args st
       = modify_metadata w (str_of (args_input args))
           (str_of (args_output args)) profile (args_custom_date args)
           (args_method args) st
    /\ length (flat_map metadata_pair profile) = 10%nat.
Proof.
  intros Hbc Hb Hstrip Hcp.
  unfold bad_flags in Hb. rewrite Hstrip, Hcp in Hb. simpl in Hb.
  apply orb_false_iff in Hb as [_ Hb]. rewrite andb_true_r in Hb.
  apply negb_false_iff in Hb.
  destruct (args_device args) as [d|] eqn:Hd; [|discriminate].
  unfold bad_choice in Hbc. rewrite Hd in Hbc.
  apply orb_false_iff in Hbc as [Hin _]. apply negb_false_iff in Hin.
  destruct (str_in_dict_get _ _ Hin) as [profile Hp].
  destruct (device_profile_shape _ _ Hp) as [Hkeys Hne].
  exists d, profile. split; [reflexivity|]. split; [exact Hp|].
  split; [exact Hkeys|]. split.
  - unfold write_operation. rewrite Hstrip, Hcp, Hd.
    unfold named_profile. rewrite Hp.
    destruct profile; [congruence|]. reflexivity.
  - assert (Hlen : length profile = 5%nat)
      by (rewrite <- (List.length_map fst), Hkeys; reflexivity).
    now rewrite metadata_pairs_length, Hlen.
Qed.

Lemma device_run_uses_table_profile_witness :
  write_operation friendly_world
    (device_args "a.mp4" "b.mp4" "Xiaomi 15" "ffmpeg") initial_state
  = modify_metadata friendly_world "a.mp4" "b.mp4"
      [("make", "Xiaomi"); ("model", "2405CPH5DC"); ("software", "Android 15");
       ("encoder", "HEVC (H.265)"); ("creation_tool", "Xiaomi 15")]
      None "ffmpeg" initial_state.
Proof.
  destruct (device_run_uses_table_profile friendly_world
              (device_args "a.mp4" "b.mp4" "Xiaomi 15" "ffmpeg")
              initial_state eq_refl eq_refl eq_refl eq_refl)
    as (d & profile & Hd & Hp & _ & Hw & _).
  injection Hd as <-. injection Hp as <-. exact Hw.
Defined.

(** X17. With --custom-profile the device named with --device is
    ignored: the profile file is opened, and modify_metadata is run on
    the mapping it holds.  When the file cannot be loaded the named
    device is not used instead: the error is logged and modify_metadata
    is run on the empty mapping. *)
Theorem custom_profile_run (w : World) (args : Namespace) (st : state) :
  args_strip args = false ->
  PyStr.truthy_opt (args_custom_profile args) = true ->
  let path := str_of (args_custom_profile args) in
  let opened := record_effect (OpenRead path) st in
  let run profile :=
    modify_metadata w (str_of (args_input args)) (str_of (args_output args))
      profile (args_custom_date args) (args_method args) in
  write_operation w args st
  = match load_json_file w (effects st) path with
    | inl profile => run profile opened
    | inr e =>
        run []
          (with_log ERROR ("Failed to load custom profile: " +:+ exn_str e)
             opened)
    end.
Proof.
  intros Hstrip Hcp path opened run.
  unfold write_operation. rewrite Hstrip, Hcp. fold path.
  destruct (load_json_file w (effects st) path) as [profile | e] eqn:Hl.
  - assert (Hload : load_custom_profile w path st = (Ret profile, opened)).
    { unfold load_custom_profile, try_catch, open_and_load.
      now rewrite Hl. }
    rewrite (bind_Ret _ _ _ _ _ Hload), andb_false_r.
    now rewrite (bind_Ret (ret tt) _ _ _ tt eq_refl).
  - assert (Hload : load_custom_profile w path st
                    = (Ret [],
                       with_log ERROR
                         ("Failed to load custom profile: " +:+ exn_str e)
                         opened)).
    { unfold load_custom_profile, try_catch, open_and_load.
      now rewrite Hl. }
    rewrite (bind_Ret _ _ _ _ _ Hload), andb_false_r.
    now rewrite (bind_Ret (ret tt) _ _ _ tt eq_refl).
Qed.

Lemma custom_profile_run_witness :
  effects (snd (write_operation no_profile_world both_profiles_args
                  initial_state))
  = [OpenRead "mine.json";
     Run ["ffmpeg"; "-i"; "a.mp4"; "-c"; "copy"; "-map_metadata"; "0"; "-y";
          "b.mp4"]].
Proof.
  rewrite (custom_profile_run no_profile_world both_profiles_args
             initial_state eq_refl eq_refl).
  reflexivity.
Defined.

(* --------------------------------------------------------------------- *)
(* Paths: parsing, printing and the parts of a name                      *)
(* --------------------------------------------------------------------- *)

Lemma split_acc_pieces (sep : ascii) (s cur : string) :
  contains sep cur = false ->
  List.Forall (fun x => contains sep x = false) (PyStr.split_acc sep cur s).
Proof.
  revert cur. induction s as [|c s IH]; intros cur Hcur; simpl.
  - now constructor.
  - destruct (Ascii.eqb c sep) eqn:E.
    + constructor; [assumption | now apply IH].
    + apply IH. rewrite contains_app, Hcur. simpl. now rewrite E.
Qed.

Lemma parts_components (p : string) :
  List.Forall component (PyPath.parts p).
Proof.
  unfold PyPath.parts, PyStr.split.
  pose proof (split_acc_pieces "/" p "" eq_refl) as H.
  induction H as [|x l Hx Hl IH]; simpl; [constructor|].
  destruct (PyPath.kept x) eqn:Hk; [|assumption].
  constructor; [now split | assumption].
Qed.

Lemma filter_kept_components (ps : list string) :
  List.Forall component ps -> List.filter PyPath.kept ps = ps.
Proof.
  induction 1 as [|x l [_ Hk] Hl IH]; simpl; [reflexivity|].
  now rewrite Hk, IH.
Qed.

Lemma split_join (ps : list string) (cur : string) :
  List.Forall component ps -> ps <> [] ->
  PyStr.split_acc "/" cur (PyStr.join "/" ps)
  = match ps with
    | [] => []
    | x :: rest => (cur +:+ x) :: rest
    end.
Proof.
  intros Hwf. revert cur.
  induction Hwf as [|x l [Hx _] Hl IH]; intros cur Hne; [congruence|].
  destruct l as [|y l].
  - simpl. now apply split_acc_no_sep.
  - change (PyStr.join "/" (x :: y :: l))
      with (x +:+ String "/" (PyStr.join "/" (y :: l))).
    rewrite split_acc_app, (split_acc_no_sep _ _ _ Hx).
    rewrite IH by discriminate. reflexivity.
Qed.

Lemma parts_of_join (ps : list string) :
  List.Forall component ps -> PyPath.parts (PyStr.join "/" ps) = ps.
Proof.
  intros Hwf. unfold PyPath.parts, PyStr.split.
  destruct ps as [|x rest]; [reflexivity|].
  rewrite split_join by (assumption || discriminate).
  now apply filter_kept_components.
Qed.

Lemma parts_of_rooted (r : string) (ps : list string) :
  r = "/" \/ r = "//" ->
  List.Forall component ps -> PyPath.parts (r +:+ PyStr.join "/" ps) = ps.
Proof.
  intros Hr Hwf.
  pose proof (parts_of_join ps Hwf) as Hj.
  unfold PyPath.parts, PyStr.split in *.
  destruct Hr as [-> | ->].
  - change ("/" +:+ PyStr.join "/" ps)
      with ("" +:+ String "/" (PyStr.join "/" ps)).
    rewrite split_acc_app. simpl. exact Hj.
  - change ("//" +:+ PyStr.join "/" ps)
      with ("" +:+ String "/" ("" +:+ String "/" (PyStr.join "/" ps))).
    rewrite !split_acc_app. simpl. exact Hj.
Qed.

Lemma leading_slashes_component (s : string) :
  contains "/" s = false -> PurePath.leading_slashes s = 0%nat.
Proof.
  destruct s as [|c s]; [reflexivity|]. simpl.
  intros H. apply orb_false_iff in H as [H _]. now rewrite H.
Qed.

Lemma root_of_join (ps : list string) :
  List.Forall component ps -> PurePath.root_of (PyStr.join "/" ps) = "".
Proof.
  intros Hwf. unfold PurePath.root_of.
  destruct Hwf as [|x l [Hx Hk] Hl]; [reflexivity|].
  assert (H : PurePath.leading_slashes (PyStr.join "/" (x :: l)) = 0%nat).
  { destruct l as [|y l].
    - now apply leading_slashes_component.
    - change (PyStr.join "/" (x :: y :: l))
        with (x +:+ String "/" (PyStr.join "/" (y :: l))).
      destruct x as [|c x]; [discriminate Hk|].
      rewrite app_cons. simpl in *.
      apply orb_false_iff in Hx as [Hc _]. now rewrite Hc. }
  now rewrite H.
Qed.

Lemma root_of_cases (p : string) :
  PurePath.root_of p = "" \/ PurePath.root_of p = "/"
  \/ PurePath.root_of p = "//".
Proof.
  unfold PurePath.root_of.
  destruct (PurePath.leading_slashes p) as [|[|[|n]]]; auto.
Qed.

Lemma parse_well_formed (p : string) : well_formed (PurePath.parse p).
Proof. split; [apply root_of_cases | apply parts_components]. Qed.

(** Printing a well-formed path and parsing it again gives it back. *)
Lemma parse_str (x : PurePath.t) :
  well_formed x -> PurePath.parse (PurePath.str x) = x.
Proof.
  destruct x as [r ps]. intros [Hr Hwf].
  cbn [PurePath.root PurePath.parts] in Hr, Hwf.
  unfold PurePath.parse, PurePath.str. cbn [PurePath.root PurePath.parts].
  destruct Hr as [-> | [-> | ->]].
  - destruct ps as [|x rest]; [reflexivity|].
    rewrite app_empty_l.
    f_equal; [now apply root_of_join | now apply parts_of_join].
  - f_equal.
    + unfold PurePath.root_of.
      change ("/" +:+ PyStr.join "/" ps) with (String "/" (PyStr.join "/" ps)).
      simpl.
      pose proof (root_of_join ps Hwf) as H. unfold PurePath.root_of in H.
      destruct (PurePath.leading_slashes (PyStr.join "/" ps))
        as [|[|[|n]]]; try reflexivity; discriminate.
    + apply parts_of_rooted; auto.
  - f_equal.
    + unfold PurePath.root_of.
      change ("//" +:+ PyStr.join "/" ps)
        with (String "/" (String "/" (PyStr.join "/" ps))).
      simpl.
      pose proof (root_of_join ps Hwf) as H. unfold PurePath.root_of in H.
      destruct (PurePath.leading_slashes (PyStr.join "/" ps))
        as [|[|[|n]]]; try reflexivity; discriminate.
    + apply parts_of_rooted; auto.
Qed.

Lemma take_drop_str (i : nat) (s : string) :
  PurePath.take_str i s +:+ PyStr.drop_str i s = s.
Proof.
  revert s. induction i as [|i IH]; intros s; destruct s as [|c s];
    try reflexivity.
  simpl. rewrite app_cons. now rewrite IH.
Qed.

Lemma rfind_decompose (c : ascii) (s : string) (i : nat) :
  PyStr.rfind c s = Some i ->
  exists rest,
    PyStr.drop_str i s = String c rest /\ contains c rest = false
    /\ String.length (PurePath.take_str i s) = i.
Proof.
  revert i. induction s as [|d s IH]; intros i; simpl; [discriminate|].
  destruct (PyStr.rfind c s) as [j|] eqn:Hr.
  - intros H. injection H as <-. destruct (IH j eq_refl) as (rest & Hd & Hc & Hl).
    exists rest. simpl. now rewrite Hl.
  - destruct (Ascii.eqb d c) eqn:E; [|discriminate].
    intros H. injection H as <-. apply Ascii.eqb_eq in E. subst d.
    exists s. simpl. repeat split.
    clear IH. induction s as [|e s IHs]; [reflexivity|].
    simpl in *. destruct (PyStr.rfind c s); [discriminate|].
    destruct (Ascii.eqb e c); [discriminate|]. now apply IHs.
Qed.

Lemma contains_take_str (c : ascii) (i : nat) (s : string) :
  contains c s = false -> contains c (PurePath.take_str i s) = false.
Proof.
  revert s. induction i as [|i IH]; intros s; destruct s as [|d s];
    try reflexivity.
  simpl. intros H. apply orb_false_iff in H as [Hd Hs].
  now rewrite Hd, IH.
Qed.

Lemma contains_drop_str (c : ascii) (i : nat) (s : string) :
  contains c s = false -> contains c (PyStr.drop_str i s) = false.
Proof.
  revert s. induction i as [|i IH]; intros s; destruct s as [|d s];
    try (intros; assumption || reflexivity).
  simpl. intros H. apply orb_false_iff in H as [Hd Hs]. now apply IH.
Qed.

Lemma stem_suffix_name (x : PurePath.t) :
  PurePath.stem x +:+ PurePath.suffix x = PurePath.name x.
Proof.
  unfold PurePath.stem, PurePath.suffix.
  destruct (PurePath.suffix_index (PurePath.name x)) as [i|].
  - apply take_drop_str.
  - clear. induction (PurePath.name x) as [|c s IH]; [reflexivity|].
    rewrite app_cons. now rewrite IH.
Qed.

Lemma suffix_parse (p : string) :
  PurePath.suffix (PurePath.parse p) = PyPath.suffix p.
Proof.
  unfold PurePath.suffix, PurePath.suffix_index, PyPath.suffix, PurePath.name,
    PyPath.name.
  simpl.
  destruct (PyStr.rfind "." (List.last (PyPath.parts p) "")) as [i|];
    [|reflexivity].
  now destruct ((0 <? i)%nat && _).
Qed.

Lemma name_component (x : PurePath.t) :
  well_formed x -> contains "/" (PurePath.name x) = false.
Proof.
  intros [_ Hwf]. unfold PurePath.name.
  induction Hwf as [|y l [Hy _] Hl IH]; [reflexivity|].
  destruct l; [exact Hy | exact IH].
Qed.

(* --------------------------------------------------------------------- *)
(* The desktop form: the proposed output path                            *)
(* --------------------------------------------------------------------- *)

Lemma kept_long (s : string) :
  (2 <= String.length s)%nat -> PyPath.kept s = true.
Proof.
  destruct s as [|c [|d s]]; simpl; try lia. intros _.
  unfold PyPath.kept. simpl. destruct (Ascii.eqb c "."); reflexivity.
Qed.

Lemma Forall_removelast {A : Type} (P : A -> Prop) (l : list A) :
  List.Forall P l -> List.Forall P (List.removelast l).
Proof.
  induction 1 as [|x l Hx Hl IH]; simpl; [constructor|].
  destruct l; [constructor | now constructor].
Qed.

Lemma processed_name_length (filename : string) :
  String.length (processed_name filename)
  = (String.length (PyPath.name filename) + 10)%nat.
Proof.
  unfold processed_name.
  change (PyPath.name filename) with (PurePath.name (PurePath.parse filename)).
  rewrite <- (stem_suffix_name (PurePath.parse filename)).
  rewrite !length_app_str. simpl. lia.
Qed.

Lemma processed_name_component (filename : string) :
  component (processed_name filename).
Proof.
  split.
  - unfold processed_name, PurePath.stem, PurePath.suffix.
    pose proof (name_component _ (parse_well_formed filename)) as Hn.
    destruct (PurePath.suffix_index (PurePath.name (PurePath.parse filename)));
      rewrite !contains_app; simpl;
      rewrite ?contains_take_str, ?contains_drop_str, ?Hn by assumption;
      reflexivity.
  - apply kept_long. rewrite processed_name_length. lia.
Qed.

Lemma parts_of_component (s : string) : component s -> PyPath.parts s = [s].
Proof.
  intros [Hs Hk]. unfold PyPath.parts, PyStr.split.
  rewrite (split_acc_no_sep _ _ _ Hs), app_empty_l. simpl. now rewrite Hk.
Qed.

Lemma suggested_output_parsed (filename : string) :
  PurePath.parse (Form.suggested_output filename)
  = {| PurePath.root := PurePath.root (PurePath.parse filename);
       PurePath.parts :=
         List.removelast (PurePath.parts (PurePath.parse filename))
         ++ [processed_name filename] |}.
Proof.
  unfold Form.suggested_output. fold (processed_name filename).
  pose proof (processed_name_component filename) as Hc.
  assert (Hj : PurePath.joinpath (PurePath.parent (PurePath.parse filename))
                 (processed_name filename)
               = {| PurePath.root := PurePath.root (PurePath.parse filename);
                    PurePath.parts :=
                      List.removelast (PurePath.parts (PurePath.parse filename))
                      ++ [processed_name filename] |}).
  { unfold PurePath.joinpath, PurePath.root_of.
    rewrite (leading_slashes_component _ (proj1 Hc)).
    now rewrite (parts_of_component _ Hc). }
  rewrite Hj. apply parse_str. split; [apply root_of_cases|].
  apply List.Forall_app. split.
  - apply Forall_removelast, parts_components.
  - now constructor.
Qed.

(** X18. The output path that browse_input_file proposes for an input
    file lies in the same directory, has the name of the input with
    "_processed" put before the extension, is therefore never the input
    file itself, and keeps the extension of the input whenever the input
    has one. *)
Theorem suggested_output_properties (filename : string) :
  let out := Form.suggested_output filename in
  PyPath.name out = processed_name filename
  /\ PurePath.parent (PurePath.parse out)
     = PurePath.parent (PurePath.parse filename)
  /\ String.length (PyPath.name out)
     = (String.length (PyPath.name filename) + 10)%nat
  /\ PyPath.name out <> PyPath.name filename
  /\ (PyPath.suffix filename <> "" ->
      PyPath.suffix out = PyPath.suffix filename).
Proof.
  intros out.
  assert (Hname : PyPath.name out = processed_name filename).
  { change (PyPath.name out) with (PurePath.name (PurePath.parse out)).
    subst out. rewrite suggested_output_parsed.
    unfold PurePath.name. simpl. apply List.last_last. }
  split; [exact Hname|]. split; [|split; [|split]].
  - subst out. rewrite suggested_output_parsed. unfold PurePath.parent. simpl.
    now rewrite List.removelast_last.
  - rewrite Hname. apply processed_name_length.
  - intros Heq. pose proof (processed_name_length filename) as Hl.
    rewrite <- Hname, Heq in Hl. lia.
  - intros Hsuf. rewrite <- !suffix_parse in *.
    unfold PurePath.suffix at 1.
    change (PurePath.name (PurePath.parse out)) with (PyPath.name out).
    rewrite Hname. unfold processed_name, PurePath.stem.
    unfold PurePath.suffix in Hsuf |- *.
    destruct (PurePath.suffix_index (PurePath.name (PurePath.parse filename)))
      as [i|] eqn:Hi; [|congruence].
    clear Hsuf. unfold PurePath.suffix_index in Hi.
    set (n := PurePath.name (PurePath.parse filename)) in *.
    destruct (PyStr.rfind "." n) as [j|] eqn:Hr; [|discriminate].
    destruct ((0 <? j)%nat && (j <? String.length n - 1)%nat) eqn:Hcond;
      [|discriminate].
    injection Hi as <-.
    destruct (rfind_decompose _ _ _ Hr) as (rest & Hd & Hc & Hl).
    rewrite Hd.
    apply andb_true_iff in Hcond as [_ Hlt]. apply Nat.ltb_lt in Hlt.
    assert (Hrest : rest <> "").
    { intros ->. pose proof (take_drop_str j n) as Htd.
      apply (f_equal String.length) in Htd.
      rewrite length_app_str, Hd, Hl in Htd. simpl in Htd. lia. }
    rewrite <- app_assoc_str.
    set (a := PurePath.take_str j n +:+ "_processed").
    assert (Hidx : PurePath.suffix_index (a +:+ String "." rest)
                   = Some (String.length a)).
    { unfold PurePath.suffix_index. rewrite (rfind_last _ _ _ Hc).
      assert (Ha : (10 <= String.length a)%nat)
        by (subst a; rewrite length_app_str; simpl; lia).
      rewrite length_app_str. simpl.
      destruct rest as [|r rest]; [congruence|]. simpl.
      replace ((0 <? String.length a)%nat) with true
        by (symmetry; apply Nat.ltb_lt; lia).
      replace ((String.length a
                <? String.length a + S (S (String.length rest)) - 1)%nat)
        with true by (symmetry; apply Nat.ltb_lt; lia).
      reflexivity. }
    rewrite Hidx. apply drop_str_app.
Qed.

Lemma suggested_output_properties_witness :
  Form.suggested_output "/home/user/videos/clip.MP4"
  = "/home/user/videos/clip_processed.MP4"
  /\ PyPath.suffix (Form.suggested_output "/home/user/videos/clip.MP4")
     = PyPath.suffix "/home/user/videos/clip.MP4".
Proof.
  split; [reflexivity|].
  apply (suggested_output_properties "/home/user/videos/clip.MP4").
  discriminate.
Defined.

(* --------------------------------------------------------------------- *)
(* The desktop form: the worker thread                                   *)
(* --------------------------------------------------------------------- *)

(** What the body of the worker thread does, by cases. *)
Lemma process_thread_cases (w : World) (d : Form.desk) :
  let f := Form.frm d in
  Form.process_thread w d
  = if String.eqb (Form.action_var f) "modify" && unknown_device f then
      (Ret tt,
       {| Form.frm := Form.set_status "Invalid device profile." (busy f);
          Form.events := Form.events d;
          Form.proc := Form.proc d |})
    else
      match form_operation w f (Form.proc d) with
      | (Ret success, s) =>
          (Ret tt,
           {| Form.frm := finished success f;
              Form.events := Form.events d ++ [final_dialog success f];
              Form.proc := s |})
      | (Raise e, s) =>
          (Raise e,
           {| Form.frm := busy f; Form.events := Form.events d;
              Form.proc := s |})
      | (Exit c, s) =>
          (Exit c,
           {| Form.frm := busy f; Form.events := Form.events d;
              Form.proc := s |})
      end.
Proof.
  destruct d as [[i o dv mt cdv de av mv sv pb pr] ev s].
  cbv beta iota zeta delta
    [Form.process_thread Form.gbind Form.set Form.get Form.lift Form.emit
     Form.gret Form.set_progress Form.set_button Form.set_status Form.frm
     Form.events Form.proc Form.action_var Form.device_var
     Form.input_file_var Form.output_file_var Form.custom_date_var
     Form.date_entry Form.method_var Form.metadata_text Form.status_var
     Form.process_button_enabled Form.progress_running
     form_operation unknown_device form_profile busy finished final_dialog
     form_date dict].
  destruct (String.eqb av "modify") eqn:Hm.
  - rewrite andb_true_l. cbv beta iota zeta.
    match goal with
    | |- context [negb (dict_truthy ?x) && ?y] =>
        destruct (negb (dict_truthy x) && y)
    end; [reflexivity|].
    destruct cdv;
      match goal with
      | |- context [modify_metadata ?a ?b ?c ?e ?g ?h ?k] =>
          destruct (modify_metadata a b c e g h k) as [[[|]|e'|c'] s']
      end; reflexivity.
  - rewrite andb_false_l. cbv beta iota zeta.
    destruct (String.eqb av "strip") eqn:Hs.
    + destruct (strip_metadata w i o s) as [[[|]|e'|c'] s']; reflexivity.
    + reflexivity.
Qed.

(** X19. A custom profile loaded in the form never reaches a backend.
    Loading it shows its entries in the preview and sets the device to
    "Custom Profile", but the mapping is kept nowhere; the worker thread
    looks "Custom Profile" up in the built-in table, finds nothing, and
    runs modify_metadata on the empty mapping. *)
Theorem loaded_custom_profile_not_used (w : World) (d : Form.desk)
  (filename : string) (profile : dict) :
  PyStr.truthy filename = true ->
  load_json_file w (effects (Form.proc d)) filename = inl profile ->
  profile <> [] ->
  Form.action_var (Form.frm d) = "modify" ->
  let f := Form.frm d in
  let d1 := snd (Form.load_custom_profile w filename d) in
  Form.device_var (Form.frm d1) = "Custom Profile"
  /\ Form.metadata_text (Form.frm d1) = Form.preview_text profile
  /\ Form.events d1
     = Form.events d
       ++ [Form.ShowInfo "Success" "Custom profile loaded successfully!"]
  /\ Form.proc d1 = record_effect (OpenRead filename) (Form.proc d)
  /\ Form.proc (snd (Form.process_thread w d1))
     = snd (modify_metadata w (Form.input_file_var f)
              (Form.output_file_var f) [] (form_date f) (Form.method_var f)
              (Form.proc d1)).
Proof.
  intros Ht Hl Hne Ha f d1.
  assert (Hd1 : d1
                = {| Form.frm :=
                       Form.set_device "Custom Profile"
                         (Form.set_metadata_text (Form.preview_text profile) f);
                     Form.events :=
                       Form.events d
                       ++ [Form.ShowInfo "Success"
                             "Custom profile loaded successfully!"];
                     Form.proc :=
                       record_effect (OpenRead filename) (Form.proc d) |}).
  { subst d1 f. unfold Form.load_custom_profile. rewrite Ht.
    unfold Form.gbind at 1, Form.lift at 1.
    unfold load_custom_profile, try_catch, open_and_load. rewrite Hl.
    destruct profile as [|kv profile]; [congruence|]. reflexivity. }
  rewrite Hd1. cbn [Form.frm Form.events Form.proc].
  split; [reflexivity|]. split; [reflexivity|]. split; [reflexivity|].
  split; [reflexivity|].
  rewrite process_thread_cases. cbn [Form.frm Form.events Form.proc].
  assert (Hop : form_operation w
                  (Form.set_device "Custom Profile"
                     (Form.set_metadata_text (Form.preview_text profile) f))
                = modify_metadata w (Form.input_file_var f)
                    (Form.output_file_var f) [] (form_date f)
                    (Form.method_var f)).
  { unfold form_operation.
    change (Form.action_var
              (Form.set_device "Custom Profile"
                 (Form.set_metadata_text (Form.preview_text profile) f)))
      with (Form.action_var f).
    subst f. rewrite Ha. reflexivity. }
  rewrite Hop.
  change (Form.action_var
            (Form.set_device "Custom Profile"
               (Form.set_metadata_text (Form.preview_text profile) f)))
    with (Form.action_var f).
  replace (unknown_device
             (Form.set_device "Custom Profile"
                (Form.set_metadata_text (Form.preview_text profile) f)))
    with false by reflexivity.
  rewrite andb_false_r.
  destruct (modify_metadata w _ _ _ _ _ _) as [[b|e|c] s]; reflexivity.
Qed.

Lemma loaded_custom_profile_not_used_witness :
  let d1 := snd (Form.load_custom_profile friendly_world "mine.json"
                   (a_desk "Xiaomi 15")) in
  effects (Form.proc (snd (Form.process_thread friendly_world d1)))
  = [OpenRead "mine.json";
     Run ["ffmpeg"; "-i"; "clip.mp4"; "-c"; "copy"; "-map_metadata"; "0";
          "-y"; "clip_processed.mp4"]].
Proof.
  intros d1.
  destruct (loaded_custom_profile_not_used friendly_world (a_desk "Xiaomi 15")
              "mine.json" [("make", "Acme")] eq_refl eq_refl
              ltac:(discriminate) eq_refl) as (_ & _ & _ & _ & Hrun).
  subst d1. rewrite Hrun. reflexivity.
Defined.

(** X20. When the operation that the worker thread runs returns, the
    thread stops the progress bar, enables the Process button again,
    sets the status to "Processing completed successfully!" or
    "Processing failed." and shows exactly one message box, an
    information for true and an error for false. *)
Theorem worker_thread_completes (w : World) (d : Form.desk) (success : bool)
  (s : state) :
  let f := Form.frm d in
  String.eqb (Form.action_var f) "modify" && unknown_device f = false ->
  form_operation w f (Form.proc d) = (Ret success, s) ->
  let r := Form.process_thread w d in
  fst r = Ret tt
  /\ Form.proc (snd r) = s
  /\ Form.events (snd r) = Form.events d ++ [final_dialog success f]
  /\ Form.progress_running (Form.frm (snd r)) = false
  /\ Form.process_button_enabled (Form.frm (snd r)) = true
  /\ Form.status_var (Form.frm (snd r))
     = (if success then "Processing completed successfully!"
        else "Processing failed.").
Proof.
  intros f Hk Hop r. subst r. rewrite process_thread_cases.
  fold f. rewrite Hk, Hop. repeat split.
Qed.

Lemma worker_thread_completes_witness :
  Form.status_var
    (Form.frm (snd (Form.process_thread friendly_world (a_desk "Xiaomi 15"))))
  = "Processing completed successfully!".
Proof.
  apply (worker_thread_completes friendly_world (a_desk "Xiaomi 15") true
           (snd (form_operation friendly_world (a_form "Xiaomi 15")
                   initial_state)));
    reflexivity.
Defined.

(** X21. The worker thread can leave the form busy for good.  When the
    action is modify and the device is neither in the table nor "Custom
    Profile", it sets the status to "Invalid device profile." and
    returns: no operation is run and no message box is shown, but the
    progress bar keeps running and the Process button stays disabled.
    The same state is left, with status "Processing...", when the
    operation raises (ffmpeg or exiftool cannot be started). *)
Theorem worker_thread_leaves_form_busy (w : World) (d : Form.desk) :
  let f := Form.frm d in
  let r := Form.process_thread w d in
  (Form.action_var f = "modify" -> unknown_device f = true ->
   fst r = Ret tt
   /\ Form.proc (snd r) = Form.proc d
   /\ Form.events (snd r) = Form.events d
   /\ Form.status_var (Form.frm (snd r)) = "Invalid device profile."
   /\ Form.progress_running (Form.frm (snd r)) = true
   /\ Form.process_button_enabled (Form.frm (snd r)) = false)
  /\ (forall e,
        String.eqb (Form.action_var f) "modify" && unknown_device f = false ->
        fst (form_operation w f (Form.proc d)) = Raise e ->
        fst r = Raise e
        /\ Form.events (snd r) = Form.events d
        /\ Form.status_var (Form.frm (snd r)) = "Processing..."
        /\ Form.progress_running (Form.frm (snd r)) = true
        /\ Form.process_button_enabled (Form.frm (snd r)) = false).
Proof.
  intros f r. subst r. rewrite process_thread_cases. fold f. split.
  - intros Ha Hu. rewrite Ha, Hu. repeat split.
  - intros e Hk Hop. rewrite Hk.
    destruct (form_operation w f (Form.proc d)) as [[b|e'|c] s];
      try discriminate.
    simpl in Hop. injection Hop as ->. repeat split.
Qed.

Lemma worker_thread_leaves_form_busy_witness :
  let r := Form.process_thread friendly_world (a_desk "My Phone") in
  Form.status_var (Form.frm (snd r)) = "Invalid device profile."
  /\ Form.progress_running (Form.frm (snd r)) = true
  /\ Form.process_button_enabled (Form.frm (snd r)) = false.
Proof.
  intros r.
  destruct (worker_thread_leaves_form_busy friendly_world (a_desk "My Phone"))
    as [Hinvalid _].
  destruct (Hinvalid eq_refl eq_refl) as (_ & _ & _ & Hs & Hp & Hb).
  auto.
Defined.

(* --------------------------------------------------------------------- *)
(* The desktop form: the guards of process_video                         *)
(* --------------------------------------------------------------------- *)

(** X22. process_video starts the worker thread exactly when the input
    and output fields are not empty, a device is given if the action is
    modify, and the input file passes validate_input_file; the device is
    not looked up at this point.  Otherwise it shows exactly one error
    box and starts nothing.  In both cases the form is unchanged and no
    external action is performed. *)
Theorem process_video_guards (w : World) (d : Form.desk) :
  let f := Form.frm d in
  let r := Form.process_video w d in
  fst r = Ret (ready_to_process w f (Form.proc d))
  /\ Form.frm (snd r) = f
  /\ effects (Form.proc (snd r)) = effects (Form.proc d)
  /\ cache (Form.proc (snd r)) = cache (Form.proc d)
  /\ (ready_to_process w f (Form.proc d) = true ->
      Form.events (snd r) = Form.events d)
  /\ (ready_to_process w f (Form.proc d) = false ->
      exists message,
        Form.events (snd r)
        = Form.events d ++ [Form.ShowError "Error" message]).
Proof.
  destruct d as [f ev s].
  cbv beta iota zeta delta
    [Form.process_video Form.gbind Form.get Form.emit Form.gret Form.lift
     Form.frm Form.events Form.proc ready_to_process].
  destruct (PyStr.truthy (Form.input_file_var f));
    cbv beta iota zeta delta [negb orb andb fst snd Form.frm Form.events
                              Form.proc];
    [|repeat split; try discriminate; eauto].
  destruct (PyStr.truthy (Form.output_file_var f));
    cbv beta iota zeta delta [negb orb andb fst snd Form.frm Form.events
                              Form.proc];
    [|repeat split; try discriminate; eauto].
  destruct (String.eqb (Form.action_var f) "modify");
    [destruct (PyStr.truthy (Form.device_var f))|];
    cbv beta iota zeta delta [negb orb andb fst snd Form.frm Form.events
                              Form.proc];
    try (repeat split; try discriminate; eauto; fail).
  all: pose proof (validate_input_file_value w (Form.input_file_var f) s)
         as Hv;
       pose proof (validate_input_file_frame w (Form.input_file_var f) s)
         as (He & Hc & _);
       fold (valid_input w (Form.input_file_var f) s) in Hv;
       destruct (validate_input_file w (Form.input_file_var f) s)
         as [res s'];
       cbn [fst snd] in Hv, He, Hc; subst res;
       destruct (valid_input w (Form.input_file_var f) s);
       cbv beta iota zeta delta [negb orb andb fst snd Form.frm Form.events
                                 Form.proc];
       repeat split; try discriminate; eauto.
Qed.

Lemma process_video_guards_witness :
  Form.events (snd (Form.process_video friendly_world (a_desk "")))
  = [Form.ShowError "Error"
       "Please select a device profile for modification."].
Proof.
  destruct (process_video_guards friendly_world (a_desk ""))
    as (_ & _ & _ & _ & _ & Hno).
  destruct (Hno eq_refl) as [message Hm].
  destruct (Form.process_video friendly_world (a_desk "")) as [r d'] eqn:Hr.
  rewrite <- Hr. reflexivity.
Defined.

(* --------------------------------------------------------------------- *)
(* Saving a profile                                                      *)
(* --------------------------------------------------------------------- *)

Lemma save_profile_cases
  (dump : list Form.event -> string -> dict -> option exn)
  (profile : dict) (save_path : string) (d : Form.desk) :
  Form.save_profile dump profile save_path d
  = let written :=
      {| Form.frm := Form.frm d;
         Form.events := Form.events d ++ [Form.WriteJson save_path profile];
         Form.proc := Form.proc d |} in
    match dump (Form.events d) save_path profile with
    | None => (Ret true, written)
    | Some e =>
        (Ret false,
         {| Form.frm := Form.frm d;
            Form.events := Form.events written;
            Form.proc :=
              with_log ERROR ("Failed to save profile: " +:+ exn_str e)
                (Form.proc d) |})
    end.
Proof.
  unfold Form.save_profile, Form.gtry, Form.gbind, Form.open_and_dump,
    Form.gret, Form.lift.
  destruct (dump (Form.events d) save_path profile); reflexivity.
Qed.

(** X23. save_profile never raises: it returns true when the profile
    file is written, and false, after logging "Failed to save profile:"
    with the text of the exception, when opening or writing the file
    fails.  It performs no action of the modifier and leaves the form
    alone. *)
Theorem save_profile_total
  (dump : list Form.event -> string -> dict -> option exn)
  (profile : dict) (save_path : string) (d : Form.desk) :
  let r := Form.save_profile dump profile save_path d in
  (exists b, fst r = Ret b
             /\ (b = true <-> dump (Form.events d) save_path profile = None))
  /\ Form.frm (snd r) = Form.frm d
  /\ Form.events (snd r)
     = Form.events d ++ [Form.WriteJson save_path profile]
  /\ effects (Form.proc (snd r)) = effects (Form.proc d)
  /\ (forall e,
        dump (Form.events d) save_path profile = Some e ->
        log (Form.proc (snd r))
        = log (Form.proc d)
          ++ [(ERROR, "Failed to save profile: " +:+ exn_str e)])
  /\ (dump (Form.events d) save_path profile = None ->
      Form.proc (snd r) = Form.proc d).
Proof.
  intros r. subst r. rewrite save_profile_cases.
  destruct (dump (Form.events d) save_path profile) as [e|]; cbn.
  - split; [exists false; split; [reflexivity | split; discriminate]|].
    repeat split; try discriminate. intros e' He'. now injection He' as <-.
  - split; [exists true; split; [reflexivity | split; reflexivity]|].
    repeat split; discriminate.
Qed.

Lemma save_profile_total_witness :
  log (Form.proc (snd (Form.save_profile read_only_disk [("make", "Acme")]
                         "mine.json" (a_desk "Xiaomi 15"))))
  = [(ERROR, "Failed to save profile: Read-only file system")].
Proof.
  destruct (save_profile_total read_only_disk [("make", "Acme")] "mine.json"
              (a_desk "Xiaomi 15")) as (_ & _ & _ & _ & Hlog & _).
  apply (Hlog (OSError "Read-only file system")). reflexivity.
Defined.

(** X24. save_current_profile writes a file only for a device of the
    built-in table and a chosen file name: what it writes is the table's
    mapping for that device, and it then shows "Profile saved
    successfully!" or "Failed to save profile." by the outcome.  For any
    other device, "Custom Profile" included, or a cancelled dialog, it
    does nothing at all: a loaded custom profile cannot be saved. *)
Theorem save_current_profile_only_builtin
  (dump : list Form.event -> string -> dict -> option exn)
  (filename : string) (d : Form.desk) :
  let f := Form.frm d in
  let r := Form.save_current_profile dump filename d in
  fst r = Ret tt
  /\ Form.frm (snd r) = f
  /\ match dict_get (Form.device_var f) get_device_profiles with
     | Some profile =>
         if PyStr.truthy filename then
           Form.events (snd r)
           = Form.events d
             ++ [Form.WriteJson filename profile;
                 match dump (Form.events d) filename profile with
                 | None => Form.ShowInfo "Success" "Profile saved successfully!"
                 | Some _ => Form.ShowError "Error" "Failed to save profile."
                 end]
         else snd r = d
     | None => snd r = d
     end.
Proof.
  destruct d as [f ev s].
  cbv beta iota zeta delta
    [Form.save_current_profile Form.gbind Form.get Form.emit Form.gret
     Form.frm Form.events Form.proc dict].
  match goal with
  | |- context [@dict_get ?V ?a ?b] =>
      destruct (@dict_get V a b) as [profile|]
  end; [|repeat split].
  destruct (PyStr.truthy filename); [|repeat split].
  rewrite save_profile_cases.
  cbv beta iota zeta delta [Form.frm Form.events Form.proc].
  destruct (dump ev filename profile);
    cbv beta iota zeta delta [fst snd Form.frm Form.events Form.proc];
    rewrite <- List.app_assoc; repeat split.
Qed.

Lemma save_current_profile_only_builtin_witness :
  snd (Form.save_current_profile writable_disk "mine.json"
         (a_desk "Custom Profile"))
  = a_desk "Custom Profile".
Proof.
  pose proof (save_current_profile_only_builtin writable_disk "mine.json"
                (a_desk "Custom Profile")) as (_ & _ & H).
  exact H.
Defined.


(* --------------------------------------------------------------------- *)
(* The command surface: launching the form                               *)
(* --------------------------------------------------------------------- *)

(** X25. --gui checks the tools before the form exists: when ffmpeg is
    missing the form is never started and main exits with status 1 after
    logging "Failed to launch GUI: ..."; a missing exiftool does not
    prevent the launch.  When the form is started, main returns (exit
    status 0) when the form's session ends and exits with status 1 when
    the session raises. *)
Theorem gui_run (w : World) (args : Namespace) (st : state) :
  bad_choice args = false -> args_gui args = true ->
  let r := main w args st in
  (ffmpeg_found w st = false ->
   fst r = Exit 1
   /\ effects (snd r) = effects st ++ [Run ["ffmpeg"; "-version"]]
   /\ last_record (snd r)
      = Some (ERROR, "Failed to launch GUI: " +:+ ffmpeg_required))
  /\ (ffmpeg_found w st = true ->
      effects (snd r) = effects (checked w st) ++ [GuiSession]
      /\ fst r = match gui_session w (effects (checked w st)) with
                 | None => Ret tt
                 | Some _ => Exit 1
                 end).
Proof.
  intros Hbc Hg r. subst r. unfold main.
  rewrite (bind_Ret _ _ _ _ _ (parse_args_ok args st Hbc)).
  unfold main_run. rewrite Hg. unfold launch_gui. split.
  - intros Hf.
    rewrite (try_catch_Raise _ _ _ _ _
               (bind_Raise _ _ _ _ _ (check_tools_ffmpeg_missing _ _ Hf))).
    split; [reflexivity|]. split; [reflexivity|].
    eapply last_record_app. reflexivity.
  - intros Hf. unfold try_catch.
    rewrite (bind_Ret _ _ _ _ _ (check_tools_ffmpeg_ok _ _ Hf)).
    destruct (gui_session w (effects (checked w st))); split; reflexivity.
Qed.

Lemma gui_run_witness :
  fst (main (tools_world ["ffmpeg"] []) gui_args initial_state) = Exit 1.
Proof.
  destruct (gui_run (tools_world ["ffmpeg"] []) gui_args initial_state
              eq_refl eq_refl) as [Hmissing _].
  destruct (Hmissing eq_refl) as [Hexit _].
  exact Hexit.
Defined.
